(** * office_to_markdown_app: a model of [app.py]

    The application is one Streamlit script around the MarkItDown
    conversion engine.  This development embeds the script's helper
    functions and the body of [main] and proves the properties its
    specification states about them.

    Conventions of the embedding:
    - a Python [str] is a list of Unicode code points ([N]); [py "..."]
      writes an ASCII literal;
    - the [re] patterns of the script are written as regex syntax trees and
      run by a backtracking matcher with Python's choices (leftmost match,
      ordered alternatives, greedy quantifiers);
    - code with effects runs in a state-and-exception monad: the two
      conversion functions over the operating-system state ([os_state]),
      [main] over the application state ([app_state]);
    - the conversion engine ([MarkItDown.convert]) is an interface:
      a [Converter] is any engine at all, an [Engine] one whose failures
      are instances of [Exception] with a [str()].  A theorem is stated for
      every [Converter] unless it says that a call or a run comes to its
      end, which needs an [Engine]. *)

From Stdlib Require Import NArith String Ascii Lia.
From stdpp Require Import base option list strings gmap.

Local Open Scope N_scope.
Local Open Scope nat_scope.

(** ** Python strings *)

Abbreviation char := N (only parsing).
Abbreviation str := (list N) (only parsing).

(** A string literal of the script, as code points. *)
Definition py (s : string) : str :=
  (fun a => N_of_ascii a) <$> list_ascii_of_string s.

(** One-character literal. *)
Definition ch (a : ascii) : char := N_of_ascii a.

(** The newline character. *)
Definition LF : char := 10%N.

(** Truth value of a Python string: non-empty. *)
Definition truthy (s : str) : bool :=
  match s with [] => false | _ :: _ => true end.

(** [x is not None], which is also the truth value of an uploaded file. *)
Definition given {A} (o : option A) : bool :=
  match o with Some _ => true | None => false end.

(** [sep in s], for a one-character [sep]. *)
Definition contains (sep : char) (s : str) : bool :=
  existsb (N.eqb sep) s.

(** [s.rsplit(sep, 1)] for a one-character separator: the string cut at the
    last occurrence of [sep], or the string alone when [sep] is absent. *)
Fixpoint rsplit1 (sep : char) (s : str) : list str :=
  match s with
  | [] => [[]]
  | c :: s' =>
      match rsplit1 sep s' with
      | [a; b] => [c :: a; b]
      | _ => if N.eqb c sep then [[]; s'] else [c :: s']
      end
  end.

(** Indexing [l[i]] of a list of strings.  Every use below is in range
    (see [rsplit1_length]); out of range the model yields the empty string. *)
Definition item (i : nat) (l : list str) : str := nth i l [].

(** ** The [re] module: syntax and backtracking matcher *)

Module re.

Inductive set_item : Type :=
| Single (c : char)
| Range (lo hi : char).

Inductive regex : Type :=
| Eps
| Lit (c : char)
| Any
| Set_ (items : list set_item)
| Seq (r1 r2 : regex)
| Alt (r1 r2 : regex)
| Opt (r : regex)
| Repeat (n : nat) (r : regex)
| Star (r : regex)
| Group (i : nat) (r : regex)
| Bol
| Eol.

Definition Plus (r : regex) : regex := Seq r (Star r).

(** A literal run of characters. *)
Definition lits (s : string) : regex :=
  foldr (fun c r => Seq (Lit c) r) Eps (py s).

Definition in_item (c : char) (it : set_item) : bool :=
  match it with
  | Single x => N.eqb c x
  | Range lo hi => N.leb lo c && N.leb c hi
  end.

Definition in_set (items : list set_item) (c : char) : bool :=
  existsb (in_item c) items.

(** Captured groups, most recent first. *)
Definition groups := list (nat * str).

Fixpoint group (i : nat) (g : groups) : option str :=
  match g with
  | [] => None
  | (j, s) :: g' => if Nat.eqb i j then Some s else group i g'
  end.

(** A continuation receives the number of characters consumed so far, the
    remaining input and the groups. *)
Definition cont := nat -> str -> groups -> option groups.

Definition accept : cont := fun _ _ g => Some g.

Definition orelse {A} (x y : option A) : option A :=
  match x with Some _ => x | None => y end.

(** [r{j}]: [step] is the matcher of [r]. *)
Fixpoint repeat_ (step : cont -> cont) (j : nat) (k : cont) : cont :=
  match j with
  | O => k
  | S j' => step (repeat_ step j' k)
  end.

(** Greedy [r*]: one more [r] first, then the rest of the pattern.  An
    iteration that consumes nothing is refused, and [fuel] bounds the
    iterations by the length of the input. *)
Fixpoint star_loop (step : cont -> cont) (fuel : nat) (k : cont) : cont :=
  fun n s g =>
    match fuel with
    | O => k n s g
    | S fuel' =>
        orelse
          (step (fun n' s' g' =>
                   if Nat.eqb n' n then None
                   else star_loop step fuel' k n' s' g') n s g)
          (k n s g)
    end.

Fixpoint m (r : regex) (k : cont) (n : nat) (s : str) (g : groups)
  : option groups :=
  match r with
  | Eps => k n s g
  | Lit c =>
      match s with
      | c' :: s' => if N.eqb c c' then k (S n) s' g else None
      | [] => None
      end
  | Any =>
      match s with
      | c' :: s' => if N.eqb c' LF then None else k (S n) s' g
      | [] => None
      end
  | Set_ items =>
      match s with
      | c' :: s' => if in_set items c' then k (S n) s' g else None
      | [] => None
      end
  | Seq r1 r2 => m r1 (m r2 k) n s g
  | Alt r1 r2 => orelse (m r1 k n s g) (m r2 k n s g)
  | Opt r1 => orelse (m r1 k n s g) (k n s g)
  | Repeat j r1 => repeat_ (m r1) j k n s g
  | Star r1 => star_loop (m r1) (S (length s)) k n s g
  | Group i r1 =>
      m r1 (fun n' s' g' => k n' s' ((i, take (n' - n) s) :: g')) n s g
  | Bol => if Nat.eqb n 0 then k n s g else None
  | Eol =>
      match s with
      | [] => k n s g
      | [c] => if N.eqb c LF then k n s g else None
      | _ => None
      end
  end.

(** [re.match(r, s)]: a match anchored at position 0. *)
Definition match_ (r : regex) (s : str) : option groups :=
  m r accept 0 s [].

(** [re.search(r, s)]: the match at the leftmost position that has one. *)
Fixpoint search_from (r : regex) (n : nat) (s : str) : option groups :=
  match m r accept n s [] with
  | Some g => Some g
  | None =>
      match s with
      | [] => None
      | _ :: s' => search_from r (S n) s'
      end
  end.

Definition search (r : regex) (s : str) : option groups :=
  search_from r 0 s.

End re.

Import re.

Infix ">>" := Seq (at level 45, right associativity).

(** ** Helper functions of the script *)

(** [youtube_regex = r"^(https?://)?(www\.)?(youtube\.com|youtu\.?be)/.+$"] *)
Definition youtube_regex : regex :=
  Bol
  >> Opt (Group 1 (lits "http" >> Opt (Lit (ch "s")) >> lits "://"))
  >> Opt (Group 2 (lits "www."))
  >> Group 3 (Alt (lits "youtube.com")
                  (lits "youtu" >> Opt (Lit (ch ".")) >> lits "be"))
  >> Lit (ch "/")
  >> Plus Any
  >> Eol.

Definition is_youtube_url (url : str) : bool :=
  match match_ youtube_regex url with Some _ => true | None => false end.

(** [[0-9A-Za-z_-]] *)
Definition id_set : list set_item :=
  [Range (ch "0") (ch "9"); Range (ch "A") (ch "Z"); Range (ch "a") (ch "z");
   Single (ch "_"); Single (ch "-")].

(** [r"(?:v=|\/)([0-9A-Za-z_-]{11}).*"] *)
Definition pattern_standard : regex :=
  Alt (lits "v=") (Lit (ch "/")) >> Group 1 (Repeat 11 (Set_ id_set)) >> Star Any.

(** [r"(?:youtu\.be\/)([0-9A-Za-z_-]{11})"] *)
Definition pattern_short : regex :=
  lits "youtu.be/" >> Group 1 (Repeat 11 (Set_ id_set)).

(** [r"(?:embed\/)([0-9A-Za-z_-]{11})"] *)
Definition pattern_embed : regex :=
  lits "embed/" >> Group 1 (Repeat 11 (Set_ id_set)).

Definition patterns : list regex :=
  [pattern_standard; pattern_short; pattern_embed].

(** The loop of [extract_youtube_id]: the first pattern that is found
    anywhere in [url] gives its group 1. *)
Fixpoint first_match (ps : list regex) (url : str) : option str :=
  match ps with
  | [] => None
  | pattern :: ps' =>
      match search pattern url with
      | Some g => group 1 g
      | None => first_match ps' url
      end
  end.

Definition extract_youtube_id (url : str) : option str :=
  first_match patterns url.

(** [get_file_extension]: [str.lower] is Python's; it is a parameter. *)
Definition get_file_extension (lower : str -> str) (filename : str) : str :=
  if contains (ch ".") filename
  then lower (item 1 (rsplit1 (ch ".") filename))
  else [].

(** ** Effects: state and exceptions *)

Abbreviation bytes := (list Byte.byte) (only parsing).

(** What a [raise] carries:
    - [Exception msg], an instance of [Exception] (or of a subclass) whose
      [str()] is [msg];
    - [Unprintable inner], an instance of [Exception] whose [__str__]
      raises [inner];
    - [BaseException msg], an instance of a class outside [Exception]
      ([SystemExit], [KeyboardInterrupt], [GeneratorExit]), with its
      [str()]. *)
Inductive exn : Type :=
| Exception (msg : str)
| Unprintable (inner : exn)
| BaseException (msg : str).

(** [isinstance(e, Exception)] *)
Definition is_Exception (e : exn) : bool :=
  match e with
  | Exception _ | Unprintable _ => true
  | BaseException _ => false
  end.

Inductive result (A : Type) : Type :=
| Ok (a : A)
| Raise (e : exn).
Arguments Ok {A} a.
Arguments Raise {A} e.

(** A computation over a state [S] that returns or raises; the state
    reached when an exception is raised is kept. *)
Definition SE (S A : Type) : Type := S -> result A * S.

#[export] Instance SE_ret {S} : MRet (SE S) := fun A a s => (Ok a, s).

#[export] Instance SE_bind {S} : MBind (SE S) := fun A B f c s =>
  match c s with
  | (Ok a, s') => f a s'
  | (Raise e, s') => (Raise e, s')
  end.

Definition raise {S A} (e : exn) : SE S A := fun s => (Raise e, s).

(** [str(e)], which runs the exception's [__str__]. *)
Definition str_ {S} (e : exn) : SE S str :=
  match e with
  | Exception msg | BaseException msg => mret msg
  | Unprintable inner => raise inner
  end.

(** [try: body / except Exception as e: handler e].  The clause takes the
    instances of [Exception] only; anything else goes on to the caller, and
    so does what the handler itself raises. *)
Definition try_except {S A} (body : SE S A) (handler : exn -> SE S A) : SE S A :=
  fun s =>
    match body s with
    | (Ok a, s') => (Ok a, s')
    | (Raise e, s') => if is_Exception e then handler e s' else (Raise e, s')
    end.

(** *** The operating-system side *)

(** Invocations of the two conversion functions, recorded as they start
    (ghost state: it lets a theorem say that no conversion was attempted). *)
Inductive call : Type :=
| convert_file_call (file_data : bytes) (filename : str)
| convert_youtube_call (url : str).

Record os_state : Type := {
  files : gmap str bytes;
  calls : list call;
}.

Definition set_files (fs : gmap str bytes) (o : os_state) : os_state :=
  {| files := fs; calls := calls o |}.

Definition log_call (c : call) : SE os_state unit :=
  fun o => (Ok (), {| files := files o; calls := calls o ++ [c] |}).

(** The conversion engine, [MarkItDown(enable_plugins=False).convert(source)]
    followed by [.text_content]: given a path or a URL and the files, it
    returns the text or raises anything at all, and may change the files. *)
Class Converter : Type := {
  md_convert : str -> gmap str bytes -> result str * gmap str bytes;
}.

(** An engine whose failures are the ordinary ones: whatever it raises is
    an instance of [Exception] with a [str()]. *)
Class Engine : Type := {
  engine_converter : Converter;
  engine_raises_exceptions :
    forall source fs e fs',
      md_convert source fs = (Raise e, fs') -> exists msg, e = Exception msg;
}.
#[export] Existing Instance engine_converter.
Coercion engine_converter : Engine >-> Converter.

(** What [tempfile.NamedTemporaryFile] does for a suffix: it creates a file
    under a name of its choice, or raises ([FileNotFoundError] for a suffix
    with a path separator, [ValueError] for one with a NUL character,
    [OSError] for a name that is too long), with the given [str()]. *)
Inductive tempfile_result : Type :=
| TempFile (path : str)
| TempError (msg : str).

(** What the Python runtime and the platform decide: [str.lower]; what
    [tempfile] does for a new file with a given suffix; and the [str()] of
    the error that [os.unlink] raises for a path that is not there (the
    platform's text, with the [repr] of the path).  The real [tempfile]
    picks a name that is not in use; no theorem below needs that. *)
Class Runtime : Type := {
  lower : str -> str;
  tmp_file : gmap str bytes -> str -> tempfile_result;
  missing_file_message : str -> str;
}.

Section Conversion.
Context `{converter : Converter} `{runtime : Runtime}.

(** [with tempfile.NamedTemporaryFile(delete=False, suffix=suffix) as f:
      f.write(file_data); path = f.name] *)
Definition NamedTemporaryFile (suffix : str) (file_data : bytes) : SE os_state str :=
  fun o =>
    match tmp_file (files o) suffix with
    | TempFile path =>
        (Ok path, set_files (<[path := file_data]> (files o)) o)
    | TempError msg => (Raise (Exception msg), o)
    end.

Definition MarkItDown_convert (source : str) : SE os_state str :=
  fun o =>
    let '(r, fs) := md_convert source (files o) in
    (r, set_files fs o).

(** [os.unlink(path)]: removing a file that is not there raises. *)
Definition os_unlink (path : str) : SE os_state unit :=
  fun o =>
    match files o !! path with
    | Some _ => (Ok (), set_files (delete path (files o)) o)
    | None => (Raise (Exception (missing_file_message path)), o)
    end.

Definition convert_file_to_markdown (file_data : bytes) (filename : str)
  : SE os_state (str * option str) :=
  log_call (convert_file_call file_data filename);;
  try_except
    (let ext := get_file_extension lower filename in
     tmp_file_path ← NamedTemporaryFile (py "." ++ ext) file_data;
     text_content ← MarkItDown_convert tmp_file_path;
     os_unlink tmp_file_path;;
     mret (text_content, None))
    (fun e => msg ← str_ e; mret ([], Some msg)).

Definition convert_youtube_to_markdown (url : str)
  : SE os_state (str * option str) :=
  log_call (convert_youtube_call url);;
  try_except
    (text_content ← MarkItDown_convert url;
     mret (text_content, None))
    (fun e => msg ← str_ e; mret ([], Some msg)).

End Conversion.

(** *** The Streamlit side *)

(** Elements a run of the script puts on the page.  The title, the logo,
    the sidebar and the input widgets are the same in every run and are left
    out; the values of the input widgets are the arguments of [main]. *)
Inductive element : Type :=
| ErrorEl (body : str)
| SuccessEl (body : str)
| DividerEl
| DownloadButtonEl (data : str) (file_name : str)
| SubheaderEl (body : str)
| TextAreaEl (value : str).

(** [st.session_state] is a dictionary; the page collects the elements in
    the order they are written. *)
Record app_state : Type := {
  session_state : gmap string str;
  page : list element;
  os : os_state;
}.

(** What [st.file_uploader] returns when a file is selected. *)
Record UploadedFile : Type := {
  name : str;
  getbuffer : bytes;
}.

Definition emit (el : element) : SE app_state unit :=
  fun a =>
    (Ok (), {| session_state := session_state a;
               page := page a ++ [el];
               os := os a |}).

Definition st_error (body : str) : SE app_state unit := emit (ErrorEl body).
Definition st_success (body : str) : SE app_state unit := emit (SuccessEl body).

(** [key in st.session_state] *)
Definition session_contains (key : string) : SE app_state bool :=
  fun a => (Ok (given (session_state a !! key)), a).

(** [st.session_state.key = v] *)
Definition session_set (key : string) (v : str) : SE app_state unit :=
  fun a =>
    (Ok (), {| session_state := <[key := v]> (session_state a);
               page := page a;
               os := os a |}).

(** [st.session_state.key]: reading a key that was never set raises. *)
Definition session_get (key : string) : SE app_state str :=
  fun a =>
    match session_state a !! key with
    | Some v => (Ok v, a)
    | None =>
        (Raise (Exception (py "st.session_state has no attribute "
                             ++ py key)), a)
    end.

(** A computation on the operating-system state, run inside the script. *)
Definition run_os {A} (c : SE os_state A) : SE app_state A :=
  fun a =>
    let '(r, o) := c (os a) in
    (r, {| session_state := session_state a; page := page a; os := o |}).

(** Truth value of [None] or a string. *)
Definition truthy_opt (o : option str) : bool :=
  match o with Some s => truthy s | None => false end.

(** [f"{x}"] for [x] that is [None] or a string. *)
Definition fmt (o : option str) : str :=
  match o with Some s => s | None => py "None" end.

Definition truncation_notice : str :=
  py "..." ++ [LF; LF]
  ++ py "(Preview truncated. Download the full file to see all content.)".

Section Script.
Context `{converter : Converter} `{runtime : Runtime}.

(** Lines 125-128: the two keys default to the empty string. *)
Definition init_session_state : SE app_state unit :=
  has_content ← session_contains "markdown_content";
  (if negb has_content then session_set "markdown_content" [] else mret ());;
  has_name ← session_contains "file_name";
  (if negb has_name then session_set "file_name" [] else mret ()).

(** Lines 180-214: the body of the button's [if].  The spinner shown
    while the conversion runs leaves nothing on the page. *)
Definition submit (uploaded_file : option UploadedFile) (youtube_url : str)
  : SE app_state unit :=
  if negb (given uploaded_file) && negb (truthy youtube_url) then
    st_error (py "Please upload a file or enter a YouTube URL")
  else if truthy youtube_url && negb (is_youtube_url youtube_url) then
    st_error (py "Please enter a valid YouTube URL")
  else
    match uploaded_file with
    | Some f =>
        '(markdown_content, error) ←
          run_os (convert_file_to_markdown (getbuffer f) (name f));
        if truthy_opt error then
          st_error (py "Error during conversion: " ++ fmt error)
        else
          session_set "markdown_content" markdown_content;;
          session_set "file_name" (name f);;
          st_success (py "Conversion completed successfully!")
    | None =>
        if truthy youtube_url then
          '(markdown_content, error) ←
            run_os (convert_youtube_to_markdown youtube_url);
          if truthy_opt error then
            st_error (py "Error during conversion: " ++ fmt error)
          else
            let video_id := extract_youtube_id youtube_url in
            let file_name :=
              if truthy_opt video_id
              then py "youtube_" ++ fmt video_id ++ py ".md"
              else py "youtube_video.md" in
            session_set "markdown_content" markdown_content;;
            session_set "file_name" file_name;;
            st_success (py "Conversion completed successfully!")
        else mret ()
    end.

(** Line 221: the name the download is offered under. *)
Definition download_file_name (stored : str) : str :=
  item 0 (rsplit1 (ch ".") stored) ++ py ".md".

(** Lines 233-237. *)
Definition preview (content : str) : str :=
  let preview_content := take 2000 content in
  if Nat.ltb 2000 (length content)
  then preview_content ++ truncation_notice
  else preview_content.

(** Lines 217-239: the results section. *)
Definition results : SE app_state unit :=
  content ← session_get "markdown_content";
  if truthy content then
    emit DividerEl;;
    stored ← session_get "file_name";
    emit (DownloadButtonEl content (download_file_name stored));;
    emit (SubheaderEl (py "Preview"));;
    emit (TextAreaEl (preview content))
  else mret ().

(** One run of the script: [clicked] is what [st.button] returned,
    [uploaded_file] and [youtube_url] what the two input widgets hold.
    This is [main] from the session state on (lines 125-128 and 159-239);
    the title, the logo and the sidebar of lines 131-157 are not part of
    it, so nothing below speaks of what [st.image] does when the logo is
    missing. *)
Definition main (clicked : bool) (uploaded_file : option UploadedFile)
    (youtube_url : str) : SE app_state unit :=
  init_session_state;;
  (if clicked then submit uploaded_file youtube_url else mret ());;
  results.

End Script.

(** ** Fixtures: a concrete engine and runtime for concrete runs *)

(** An engine whose [convert] raises [Exception(msg)] on every source. *)
Definition failing_engine (msg : str) : Engine :=
  {| engine_converter :=
       {| md_convert := fun _ fs => (Raise (Exception msg), fs) |};
     engine_raises_exceptions :=
       ltac:(intros source fs e fs' [= <- _]; eexists; reflexivity) |}.

(** An engine whose [convert] returns [text] on every source. *)
Definition constant_engine (text : str) : Engine :=
  {| engine_converter := {| md_convert := fun _ fs => (Ok text, fs) |};
     engine_raises_exceptions :=
       ltac:(intros source fs e fs' [=]) |}.


(** A converter that is interrupted on every source: its [convert] raises
    [KeyboardInterrupt()], which is not an [Exception]. *)
Definition interrupted_converter : Converter :=
  {| md_convert := fun _ fs => (Raise (BaseException []), fs) |}.

(** The [repr] of a path made of printable characters: in single quotes,
    or in double quotes when it holds a single quote and no double one;
    backslashes and the enclosing quote are escaped. *)
Definition path_repr (path : str) : str :=
  let quote :=
    if contains 39%N path && negb (contains 34%N path) then 34%N else 39%N in
  quote
    :: foldr (fun c acc =>
                if N.eqb c 92%N || N.eqb c quote then 92%N :: c :: acc
                else c :: acc) [quote] path.

(** A POSIX runtime with lower-casing of the ASCII letters and one fixed
    temporary name. *)
Definition fixed_runtime : Runtime :=
  {| lower := fmap (fun c => if N.leb 65 c && N.leb c 90 then (c + 32)%N else c);
     tmp_file := fun _ suffix =>
       let path := py "/tmp/tmpq3x8k2" ++ suffix in
       if contains 0%N suffix then TempError (py "embedded null byte")
       else if contains (ch "/") suffix then
         TempError (py "[Errno 2] No such file or directory: " ++ path_repr path)
       else if Nat.ltb 244 (length suffix) then
         TempError (py "[Errno 36] File name too long: " ++ path_repr path)
       else TempFile path;
     missing_file_message := fun path =>
       py "[Errno 2] No such file or directory: " ++ path_repr path |}.

Definition empty_os : os_state := {| files := ∅; calls := [] |}.

Definition report_docx : UploadedFile :=
  {| name := py "report.docx"; getbuffer := [Byte.x50; Byte.x4b] |}.

Definition old_result : app_state :=
  {| session_state :=
       <["file_name" := py "notes.docx"]>
         (<["markdown_content" := py "# Notes"]> ∅);
     page := [];
     os := empty_os |}.

(** ** Names used in the statements *)

(** The suffix [convert_file_to_markdown] asks [tempfile] for. *)
Definition scratch_suffix `{runtime : Runtime} (filename : str) : str :=
  py "." ++ get_file_extension lower filename.

(** What the [except] clause of the two conversion functions makes of an
    exception [e] that reaches it: the error pair, or, for what it does not
    catch and for what [str(e)] raises, an exception that goes on. *)
Definition handled (e : exn) : result (str * option str) :=
  match e with
  | Exception msg => Ok ([], Some msg)
  | Unprintable inner => Raise inner
  | BaseException _ => Raise e
  end.

(** The session state after lines 125-128. *)
Definition defaulted (ss : gmap string str) : gmap string str :=
  let ss1 :=
    if given (ss !! "markdown_content") then ss
    else <["markdown_content" := []]> ss in
  if given (ss1 !! "file_name") then ss1 else <["file_name" := []]> ss1.

(** [a] with more elements on the page. *)
Definition with_page (els : list element) (a : app_state) : app_state :=
  {| session_state := session_state a; page := page a ++ els; os := os a |}.

(** The two messages of the input validation. *)
Definition validation_message (youtube_url : str) : str :=
  if truthy youtube_url
  then py "Please enter a valid YouTube URL"
  else py "Please upload a file or enter a YouTube URL".

(** The state a submission leaves once its conversion call has returned
    [(text, error)] in the operating-system state [o]: what lines 192-197
    and 203-214 do with the pair, for the file name [stored]. *)
Definition after_conversion (text : str) (error : option str) (stored : str)
    (o : os_state) (a : app_state) : app_state :=
  if truthy_opt error then
    {| session_state := session_state a;
       page := page a ++ [ErrorEl (py "Error during conversion: " ++ fmt error)];
       os := o |}
  else
    {| session_state :=
         <["file_name" := stored]>
           (<["markdown_content" := text]> (session_state a));
       page := page a ++ [SuccessEl (py "Conversion completed successfully!")];
       os := o |}.

(** The name stored for a URL conversion (lines 207-210). *)
Definition youtube_file_name (url : str) : str :=
  match extract_youtube_id url with
  | Some video_id => py "youtube_" ++ video_id ++ py ".md"
  | None => py "youtube_video.md"
  end.

(** The elements of the results section for a stored result. *)
Definition results_elements (content stored : str) : list element :=
  if truthy content then
    [DividerEl;
     DownloadButtonEl content (item 0 (rsplit1 (ch ".") stored) ++ py ".md");
     SubheaderEl (py "Preview");
     TextAreaEl (if Nat.ltb 2000 (length content)
                 then take 2000 content ++ truncation_notice
                 else take 2000 content)]
  else [].

(** ** What the identifier patterns look for *)

Definition id_char (c : char) : bool := in_set id_set c.

(** The identifier that starts [t], if [t] starts with eleven identifier
    characters. *)
Definition id_at (t : str) : option str :=
  if Nat.leb 11 (length t) && forallb id_char (take 11 t)
  then Some (take 11 t)
  else None.

(** The identifier introduced by ["v="] or ["/"] at the start of [s]. *)
Definition candidate (s : str) : option str :=
  match s with
  | c :: t =>
      if N.eqb (ch "v") c then
        match t with
        | d :: t' => if N.eqb (ch "=") d then id_at t' else None
        | [] => None
        end
      else if N.eqb (ch "/") c then id_at t
      else None
  | [] => None
  end.

(** The candidate at the leftmost position of [s] that has one. *)
Fixpoint first_candidate (s : str) : option str :=
  match candidate s with
  | Some x => Some x
  | None =>
      match s with
      | [] => None
      | _ :: s' => first_candidate s'
      end
  end.

Definition id_shaped (x : str) : Prop :=
  length x = 11 /\ Forall (fun c => id_char c = true) x.

(** [url] has ["v="] or ["/"] somewhere, followed by eleven identifier
    characters. *)
Definition has_candidate (url : str) : Prop :=
  exists pre x post,
    id_shaped x /\
    (url = pre ++ py "v=" ++ x ++ post \/ url = pre ++ py "/" ++ x ++ post).

(** ** The supported-format catalog *)

(** One entry of the dictionary that [get_supported_formats] returns. *)
Record format_info : Type := {
  formats : list str;
  extensions : list str;
}.

(** [get_supported_formats]: the dictionary, in the order it is written (a
    Python dictionary keeps the order of insertion).  The keys start with
    an emoji, given by its code point. *)
Definition get_supported_formats : list (str * format_info) :=
  [ (128221%N :: py " Documents",
     {| formats := [py "Word (.docx, .doc)"; py "PDF"; py "EPub"];
        extensions := [py "docx"; py "doc"; py "pdf"; py "epub"] |});
    (128202%N :: py " Spreadsheets",
     {| formats := [py "Excel (.xlsx, .xls)"];
        extensions := [py "xlsx"; py "xls"] |});
    (128202%N :: py " Presentations",
     {| formats := [py "PowerPoint (.pptx, .ppt)"];
        extensions := [py "pptx"; py "ppt"] |});
    (127760%N :: py " Web",
     {| formats := [py "HTML"; py "YouTube URLs"];
        extensions := [py "html"; py "htm"] |});
    (128193%N :: py " Others",
     {| formats := [py "CSV"; py "JSON"; py "XML";
                    py "ZIP (iterates over contents)"];
        extensions := [py "csv"; py "json"; py "xml"; py "zip"] |}) ].

(** Lines 160-163: the extensions the uploader is given. *)
Definition all_extensions : list str :=
  foldl (fun acc entry => acc ++ extensions (snd entry)) [] get_supported_formats.

(** ** The words a pattern stands for *)

(** [denot r n w t]: the pattern [r] can match the word [w] when [n]
    characters come before it and [t] comes after it.  This is the usual
    reading of a regular expression, with no reference to the order in
    which a matcher tries things. *)
Fixpoint rep_rel (R : nat -> str -> str -> Prop) (j : nat)
    (n : nat) (w t : str) : Prop :=
  match j with
  | O => w = []
  | S j' =>
      exists w1 w2,
        w = w1 ++ w2 /\ R n w1 (w2 ++ t) /\
        rep_rel R j' (n + length w1) w2 t
  end.

Inductive star_rel (R : nat -> str -> str -> Prop)
  : nat -> str -> str -> Prop :=
| star_done n t : star_rel R n [] t
| star_more n w1 w2 t :
    w1 <> [] ->
    R n w1 (w2 ++ t) ->
    star_rel R (n + length w1) w2 t ->
    star_rel R n (w1 ++ w2) t.

Fixpoint denot (r : regex) (n : nat) (w t : str) : Prop :=
  match r with
  | Eps => w = []
  | Lit c => w = [c]
  | Any => exists c, w = [c] /\ c <> LF
  | Set_ items => exists c, w = [c] /\ in_set items c = true
  | Seq r1 r2 =>
      exists w1 w2,
        w = w1 ++ w2 /\ denot r1 n w1 (w2 ++ t) /\
        denot r2 (n + length w1) w2 t
  | Alt r1 r2 => denot r1 n w t \/ denot r2 n w t
  | Opt r1 => denot r1 n w t \/ w = []
  | Repeat j r1 => rep_rel (denot r1) j n w t
  | Star r1 => star_rel (denot r1) n w t
  | Group _ r1 => denot r1 n w t
  | Bol => w = [] /\ n = 0
  | Eol => w = [] /\ (t = [] \/ t = [LF])
  end.

(** The URLs [youtube_regex] is written for: an optional protocol, an
    optional ["www."], one of three host spellings, a slash and a non-empty
    rest without a newline, except for one at the very end. *)
Definition url_protocols : list str := [[]; py "http://"; py "https://"].
Definition url_www : list str := [[]; py "www."].
Definition url_hosts : list str := [py "youtube.com"; py "youtu.be"; py "youtube"].

Definition url_shaped (url : str) : Prop :=
  exists proto www host body tail,
    url = proto ++ www ++ host ++ py "/" ++ body ++ tail /\
    proto ∈ url_protocols /\ www ∈ url_www /\ host ∈ url_hosts /\
    body <> [] /\ (LF ∉ body) /\ (tail = [] \/ tail = [LF]).

(** * Theorems *)

(** ** Strings *)

Lemma rsplit1_length sep s :
  length (rsplit1 sep s) = if contains sep s then 2 else 1.
Proof.
  induction s as [|c s IH]; [reflexivity|].
  cbn [rsplit1 contains existsb]. unfold contains in IH.
  destruct (rsplit1 sep s) as [|a [|b [|x l]]]; cbn [length] in *;
    destruct (existsb (N.eqb sep) s); try discriminate;
    rewrite ?orb_true_r, ?orb_false_r; try reflexivity.
  rewrite (N.eqb_sym sep c). destruct (N.eqb c sep); reflexivity.
Qed.

Lemma rsplit1_absent sep s :
  contains sep s = false -> rsplit1 sep s = [s].
Proof.
  induction s as [|c s IH]; [reflexivity|].
  cbn [rsplit1 contains existsb]. intros H.
  apply orb_false_elim in H as [Hc Hs].
  rewrite (IH Hs). rewrite (N.eqb_sym c sep), Hc. reflexivity.
Qed.

Lemma rsplit1_last sep a b :
  contains sep b = false -> rsplit1 sep (a ++ sep :: b) = [a; b].
Proof.
  intros Hb. induction a as [|c a IH].
  - cbn [app rsplit1]. rewrite (rsplit1_absent _ _ Hb), N.eqb_refl. reflexivity.
  - cbn [app rsplit1]. cbn [app] in IH. rewrite IH. reflexivity.
Qed.

(** ** The matcher on the pieces of the identifier patterns *)

Section Matcher.
Implicit Types (k : cont) (n : nat) (s : str) (g : groups).

Lemma m_repeat_S r j k :
  m (Repeat (S j) r) k = m r (m (Repeat j r) k).
Proof. reflexivity. Qed.

Lemma m_set_cons items k n c s g :
  m (Set_ items) k n (c :: s) g =
  if in_set items c then k (S n) s g else None.
Proof. reflexivity. Qed.

(** [[...]{j}] consumes exactly [j] characters of the set. *)
Lemma m_repeat_set items j k n s g :
  m (Repeat j (Set_ items)) k n s g =
  if Nat.leb j (length s) && forallb (in_set items) (take j s)
  then k (n + j) (drop j s) g
  else None.
Proof.
  revert n s. induction j as [|j IH]; intros n s.
  - cbn. rewrite Nat.add_0_r. reflexivity.
  - rewrite m_repeat_S. destruct s as [|c s]; [reflexivity|].
    rewrite m_set_cons. cbn [length take drop forallb Nat.leb].
    destruct (in_set items c); [|rewrite andb_false_r; reflexivity].
    rewrite IH, andb_true_l. replace (S n + j) with (n + S j) by lia.
    reflexivity.
Qed.

(** [.*] at the end of a pattern accepts whatever follows. *)
Lemma star_any_accept fuel n s g :
  star_loop (m Any) fuel accept n s g = Some g.
Proof.
  revert n s. induction fuel as [|fuel IH]; intros n s; [reflexivity|].
  cbn [star_loop m]. destruct s as [|c s]; [reflexivity|].
  destruct (N.eqb c LF); [reflexivity|].
  replace (Nat.eqb (S n) n) with false
    by (symmetry; apply Nat.eqb_neq; lia).
  rewrite IH. reflexivity.
Qed.

(** The identifier group. *)
Lemma m_id_group k n s g :
  m (Group 1 (Repeat 11 (Set_ id_set))) k n s g =
  match id_at s with
  | Some x => k (n + 11) (drop 11 s) ((1, x) :: g)
  | None => None
  end.
Proof.
  cbn [m]. fold (m (Set_ id_set)).
  change (repeat_ (m (Set_ id_set)) 11 ?k' n s g)
    with (m (Repeat 11 (Set_ id_set)) k' n s g).
  rewrite m_repeat_set. unfold id_at, id_char.
  destruct (Nat.leb 11 (length s) && forallb (in_set id_set) (take 11 s));
    [|reflexivity].
  replace (n + 11 - n) with 11 by lia. reflexivity.
Qed.

(** A literal run matches exactly when the input starts with it. *)
Lemma m_literal cs k n s g :
  m (foldr (fun c r => Seq (Lit c) r) Eps cs) k n (cs ++ s) g =
  k (n + length cs) s g.
Proof.
  revert n. induction cs as [|c cs IH]; intros n.
  - cbn. rewrite Nat.add_0_r. reflexivity.
  - cbn [foldr m app length]. rewrite N.eqb_refl.
    change (m (foldr (fun c r => Seq (Lit c) r) Eps cs) k (S n) (cs ++ s) g
            = k (n + S (length cs)) s g).
    rewrite IH. replace (S n + length cs) with (n + S (length cs)) by lia.
    reflexivity.
Qed.

Lemma m_literal_inv cs k n s g g' :
  m (foldr (fun c r => Seq (Lit c) r) Eps cs) k n s g = Some g' ->
  exists t, s = cs ++ t /\ k (n + length cs) t g = Some g'.
Proof.
  revert n s. induction cs as [|c cs IH]; intros n s.
  - cbn. rewrite Nat.add_0_r. eauto.
  - cbn [foldr m]. destruct s as [|c' s]; [discriminate|].
    destruct (N.eqb c c') eqn:E; [|discriminate].
    apply N.eqb_eq in E. subst c'. intros H.
    apply IH in H as (t & -> & H). exists t. split; [reflexivity|].
    cbn [length]. replace (n + S (length cs)) with (S n + length cs) by lia.
    exact H.
Qed.

Lemma m_lit_cons c k n c' s g :
  m (Lit c) k n (c' :: s) g = if N.eqb c c' then k (S n) s g else None.
Proof. reflexivity. Qed.

Lemma m_id_group_tail n s g :
  m (Group 1 (Repeat 11 (Set_ id_set)) >> Star Any) accept n s g =
  (fun x => (1, x) :: g) <$> id_at s.
Proof.
  change (m (Group 1 (Repeat 11 (Set_ id_set)) >> Star Any) accept n s g)
    with (m (Group 1 (Repeat 11 (Set_ id_set))) (m (Star Any) accept) n s g).
  rewrite m_id_group. destruct (id_at s) as [x|]; [|reflexivity].
  cbn [m]. rewrite star_any_accept. reflexivity.
Qed.

(** The standard pattern at one position. *)
Lemma standard_at n s g :
  m pattern_standard accept n s g = (fun x => (1, x) :: g) <$> candidate s.
Proof.
  change (m pattern_standard accept n s g) with
    (orelse
       (m (Lit (ch "v") >> Lit (ch "=") >> Eps)
          (m (Group 1 (Repeat 11 (Set_ id_set)) >> Star Any) accept) n s g)
       (m (Lit (ch "/"))
          (m (Group 1 (Repeat 11 (Set_ id_set)) >> Star Any) accept) n s g)).
  destruct s as [|c t]; [reflexivity|].
  change (m (Lit (ch "v") >> Lit (ch "=") >> Eps) ?k n (c :: t) g)
    with (m (Lit (ch "v")) (m (Lit (ch "=")) k) n (c :: t) g).
  rewrite !m_lit_cons. cbn [candidate].
  destruct (N.eqb (ch "v") c) eqn:Ev.
  - apply N.eqb_eq in Ev. subst c.
    destruct t as [|d t'].
    + reflexivity.
    + rewrite m_lit_cons. destruct (N.eqb (ch "=") d).
      * rewrite m_id_group_tail. destruct (id_at t'); reflexivity.
      * reflexivity.
  - cbn [orelse]. destruct (N.eqb (ch "/") c); [|reflexivity].
    apply m_id_group_tail.
Qed.

Lemma search_standard n s :
  search_from pattern_standard n s =
  (fun x => [(1, x)]) <$> first_candidate s.
Proof.
  revert n. induction s as [|c s IH]; intros n;
    cbn [search_from first_candidate]; rewrite standard_at.
  - destruct (candidate []); reflexivity.
  - destruct (candidate (c :: s)); [reflexivity|]. apply IH.
Qed.

Lemma search_from_inv r n s g :
  search_from r n s = Some g ->
  exists i, m r accept (n + i) (drop i s) [] = Some g.
Proof.
  revert n. induction s as [|c s IH]; intros n; cbn [search_from].
  - destruct (m r accept n [] []) eqn:E; [|discriminate].
    intros [= <-]. exists 0. rewrite Nat.add_0_r. exact E.
  - destruct (m r accept n (c :: s) []) eqn:E.
    + intros [= <-]. exists 0. rewrite Nat.add_0_r. exact E.
    + intros H. apply IH in H as [i H]. exists (S i).
      replace (n + S i) with (S n + i) by lia. exact H.
Qed.

Lemma first_candidate_drop i s x :
  candidate (drop i s) = Some x -> is_Some (first_candidate s).
Proof.
  revert i. induction s as [|c s IH]; intros i.
  - rewrite drop_nil. discriminate.
  - destruct i as [|i]; cbn [drop first_candidate].
    + intros ->. eauto.
    + intros H. destruct (candidate (c :: s)); eauto.
Qed.

(** Where the short or the embed pattern matches, the standard pattern
    matches at the ["/"] that ends their literal part. *)
Lemma literal_slash_at lit n s g g' :
  m (foldr (fun c r => Seq (Lit c) r) Eps (lit ++ [ch "/"])
     >> Group 1 (Repeat 11 (Set_ id_set))) accept n s g = Some g' ->
  is_Some (candidate (drop (length lit) s)).
Proof.
  intros H.
  change (m (foldr (fun c r => Seq (Lit c) r) Eps (lit ++ [ch "/"]))
            (m (Group 1 (Repeat 11 (Set_ id_set))) accept) n s g = Some g')
    in H.
  apply m_literal_inv in H as (t & -> & H).
  rewrite m_id_group in H. destruct (id_at t) as [x|] eqn:E; [|discriminate].
  rewrite <- app_assoc, drop_app_length. cbn [app candidate].
  replace (N.eqb (ch "v") (ch "/")) with false by reflexivity.
  rewrite N.eqb_refl, E. eauto.
Qed.

Lemma search_literal_slash lit s g :
  search (foldr (fun c r => Seq (Lit c) r) Eps (lit ++ [ch "/"])
          >> Group 1 (Repeat 11 (Set_ id_set))) s = Some g ->
  is_Some (first_candidate s).
Proof.
  intros H. apply search_from_inv in H as [i H].
  apply literal_slash_at in H as [x H].
  rewrite drop_drop in H. eapply first_candidate_drop, H.
Qed.

End Matcher.

(** [extract_youtube_id] is decided by the standard pattern alone: the
    short and the embed pattern never find an identifier it misses. *)
Lemma extract_first_candidate url :
  extract_youtube_id url = first_candidate url.
Proof.
  unfold extract_youtube_id, patterns. cbn [first_match]. unfold search at 1.
  rewrite search_standard.
  destruct (first_candidate url) as [x|] eqn:E; [reflexivity|].
  cbn [fmap option_fmap option_map].
  destruct (search pattern_short url) as [g|] eqn:E2.
  { apply (search_literal_slash (py "youtu.be")) in E2 as [x E2]. congruence. }
  destruct (search pattern_embed url) as [g|] eqn:E3.
  { apply (search_literal_slash (py "embed")) in E3 as [x E3]. congruence. }
  reflexivity.
Qed.

Lemma forallb_Forall {A} (f : A -> bool) (l : list A) :
  forallb f l = true <-> Forall (fun c => f c = true) l.
Proof.
  induction l as [|c l IH]; cbn [forallb].
  - split; [constructor|reflexivity].
  - rewrite andb_true_iff, Forall_cons, IH. reflexivity.
Qed.

Lemma id_at_Some t x :
  id_at t = Some x -> id_shaped x /\ exists post, t = x ++ post.
Proof.
  unfold id_at.
  destruct (Nat.leb 11 (length t) && forallb id_char (take 11 t)) eqn:E;
    [|discriminate].
  intros [= <-]. apply andb_true_iff in E as [Hlen Hall].
  apply Nat.leb_le in Hlen. repeat split.
  - rewrite length_take. lia.
  - apply forallb_Forall, Hall.
  - exists (drop 11 t). symmetry. apply take_drop.
Qed.

Lemma id_at_app x post : id_shaped x -> id_at (x ++ post) = Some x.
Proof.
  intros [Hlen Hall]. unfold id_at.
  assert (Htake : take 11 (x ++ post) = x)
    by (rewrite <- Hlen; apply take_app_length).
  rewrite Htake. apply forallb_Forall in Hall. rewrite Hall, andb_true_r.
  replace (Nat.leb 11 (length (x ++ post))) with true; [reflexivity|].
  symmetry. apply Nat.leb_le. rewrite length_app. lia.
Qed.

Lemma candidate_Some s x :
  candidate s = Some x ->
  id_shaped x /\
  exists post, s = py "v=" ++ x ++ post \/ s = py "/" ++ x ++ post.
Proof.
  destruct s as [|c t]; [discriminate|]. cbn [candidate].
  destruct (N.eqb (ch "v") c) eqn:Ev.
  - apply N.eqb_eq in Ev. subst c. destruct t as [|d t']; [discriminate|].
    destruct (N.eqb (ch "=") d) eqn:Ee; [|discriminate].
    apply N.eqb_eq in Ee. subst d. intros H.
    apply id_at_Some in H as (Hx & post & ->). split; [exact Hx|].
    exists post. left. reflexivity.
  - destruct (N.eqb (ch "/") c) eqn:Es; [|discriminate].
    apply N.eqb_eq in Es. subst c. intros H.
    apply id_at_Some in H as (Hx & post & ->). split; [exact Hx|].
    exists post. right. reflexivity.
Qed.

Lemma first_candidate_Some s x :
  first_candidate s = Some x ->
  id_shaped x /\
  exists pre post,
    s = pre ++ py "v=" ++ x ++ post \/ s = pre ++ py "/" ++ x ++ post.
Proof.
  induction s as [|c s IH]; cbn [first_candidate].
  - destruct (candidate []) eqn:E; [|discriminate]. intros [= ->].
    apply candidate_Some in E as (Hx & post & E). split; [exact Hx|].
    exists [], post. exact E.
  - destruct (candidate (c :: s)) eqn:E.
    + intros [= ->]. apply candidate_Some in E as (Hx & post & E).
      split; [exact Hx|]. exists [], post. exact E.
    + intros H. apply IH in H as (Hx & pre & post & H).
      split; [exact Hx|]. exists (c :: pre), post.
      destruct H as [-> | ->]; [left|right]; reflexivity.
Qed.

Lemma first_candidate_None s :
  first_candidate s = None <-> ~ has_candidate s.
Proof.
  split.
  - intros HN (pre & x & post & Hx & H).
    assert (Hc : candidate (drop (length pre) s) = Some x).
    { destruct H as [-> | ->]; rewrite drop_app_length.
      - change (candidate (py "v=" ++ x ++ post)) with (id_at (x ++ post)).
        apply id_at_app, Hx.
      - change (candidate (py "/" ++ x ++ post)) with (id_at (x ++ post)).
        apply id_at_app, Hx. }
    apply first_candidate_drop in Hc as [y Hy]. congruence.
  - intros HN. destruct (first_candidate s) as [x|] eqn:E; [|reflexivity].
    exfalso. apply HN. apply first_candidate_Some in E as (Hx & pre & post & E).
    exists pre, x, post. split; assumption.
Qed.

Lemma id_char_not_dot c : id_char c = true -> c <> ch ".".
Proof. intros H ->. discriminate H. Qed.

Lemma id_shaped_no_dot x : id_shaped x -> contains (ch ".") x = false.
Proof.
  intros [_ Hall]. unfold contains.
  induction Hall as [|c l Hc _ IH]; [reflexivity|].
  cbn [existsb]. rewrite IH, orb_false_r.
  apply N.eqb_neq. intros E. apply (id_char_not_dot c Hc). symmetry. exact E.
Qed.

Lemma extract_youtube_id_shaped url x :
  extract_youtube_id url = Some x -> id_shaped x.
Proof.
  rewrite extract_first_candidate. intros H.
  apply first_candidate_Some in H. tauto.
Qed.

(** ** The conversion functions *)

Section ConversionFacts.
Context `{converter : Converter} `{runtime : Runtime}.

(** All the paths through [convert_file_to_markdown]. *)
Lemma convert_file_to_markdown_eq file_data filename o :
  convert_file_to_markdown file_data filename o =
  let cs := calls o ++ [convert_file_call file_data filename] in
  match tmp_file (files o) (scratch_suffix filename) with
  | TempError msg => (Ok ([], Some msg), {| files := files o; calls := cs |})
  | TempFile path =>
      match md_convert path (<[path := file_data]> (files o)) with
      | (Ok text, fs) =>
          match fs !! path with
          | Some _ =>
              (Ok (text, None), {| files := delete path fs; calls := cs |})
          | None =>
              (Ok ([], Some (missing_file_message path)),
               {| files := fs; calls := cs |})
          end
      | (Raise e, fs) => (handled e, {| files := fs; calls := cs |})
      end
  end.
Proof.
  unfold convert_file_to_markdown, scratch_suffix, try_except, log_call,
    NamedTemporaryFile, MarkItDown_convert, os_unlink, set_files,
    mbind, SE_bind, mret, SE_ret.
  cbn [files calls].
  destruct (tmp_file _ _) as [path|msg]; cbn [files calls is_Exception str_];
    [|reflexivity].
  destruct (md_convert _ _) as [[text|e] fs]; cbn [files calls].
  - destruct (fs !! _); reflexivity.
  - destruct e; reflexivity.
Qed.

Lemma convert_youtube_to_markdown_eq url o :
  convert_youtube_to_markdown url o =
  let cs := calls o ++ [convert_youtube_call url] in
  match md_convert url (files o) with
  | (Ok text, fs) => (Ok (text, None), {| files := fs; calls := cs |})
  | (Raise e, fs) => (handled e, {| files := fs; calls := cs |})
  end.
Proof.
  unfold convert_youtube_to_markdown, try_except, log_call,
    MarkItDown_convert, set_files, mbind, SE_bind, mret, SE_ret.
  cbn [files calls].
  destruct (md_convert _ _) as [[text|e] fs]; [reflexivity|].
  destruct e; reflexivity.
Qed.

(** When the call reports no error the scratch file is gone. *)
Lemma scratch_removed_on_success file_data filename o text o' :
  convert_file_to_markdown file_data filename o = (Ok (text, None), o') ->
  exists path,
    tmp_file (files o) (scratch_suffix filename) = TempFile path /\
    files o' !! path = None.
Proof.
  rewrite convert_file_to_markdown_eq. cbv zeta.
  destruct (tmp_file _ _) as [path|msg]; [|discriminate].
  destruct (md_convert _ _) as [[t|e] fs]; [|destruct e; discriminate].
  destruct (fs !! _); [|discriminate].
  intros [= _ <-]. exists path. split; [reflexivity|].
  cbn [files]. apply lookup_delete_eq.
Qed.

(** When the engine raises, the scratch file stays as the engine left it:
    [os.unlink] is not reached. *)
Lemma scratch_kept_on_engine_error file_data filename o path e fs :
  tmp_file (files o) (scratch_suffix filename) = TempFile path ->
  md_convert path (<[path := file_data]> (files o)) = (Raise e, fs) ->
  exists o',
    convert_file_to_markdown file_data filename o = (handled e, o') /\
    files o' = fs.
Proof.
  intros Ht H. rewrite convert_file_to_markdown_eq. cbv zeta.
  rewrite Ht, H. eauto.
Qed.



End ConversionFacts.

Section EngineFacts.
Context `{engine : Engine} `{runtime : Runtime}.

(** With an engine whose failures are ordinary, both functions return a
    pair, whatever the engine does, and record exactly their own
    invocation. *)
Lemma convert_file_to_markdown_returns file_data filename o :
  exists r o',
    convert_file_to_markdown file_data filename o = (Ok r, o') /\
    calls o' = calls o ++ [convert_file_call file_data filename].
Proof.
  rewrite convert_file_to_markdown_eq. cbv zeta.
  destruct (tmp_file _ _) as [path|msg]; [|eauto].
  destruct (md_convert _ _) as [[text|e] fs] eqn:E.
  - destruct (fs !! _); eauto.
  - apply engine_raises_exceptions in E as [msg ->]. cbn [handled]. eauto.
Qed.

Lemma convert_youtube_to_markdown_returns url o :
  exists r o',
    convert_youtube_to_markdown url o = (Ok r, o') /\
    calls o' = calls o ++ [convert_youtube_call url].
Proof.
  rewrite convert_youtube_to_markdown_eq. cbv zeta.
  destruct (md_convert _ _) as [[text|e] fs] eqn:E; [eauto|].
  apply engine_raises_exceptions in E as [msg ->]. cbn [handled]. eauto.
Qed.

End EngineFacts.

(** ** The script *)

Section ScriptFacts.
Context `{converter : Converter} `{runtime : Runtime}.

Lemma init_session_state_eq a :
  init_session_state a =
  (Ok (), {| session_state := defaulted (session_state a);
             page := page a; os := os a |}).
Proof.
  unfold init_session_state, session_contains, session_set, defaulted,
    mbind, SE_bind, mret, SE_ret.
  cbn [session_state page os].
  destruct (given (session_state a !! "markdown_content"));
    cbn [negb session_state page os];
    match goal with |- context [given ?x] => destruct (given x) end;
    cbn [negb]; destruct a; reflexivity.
Qed.

Lemma defaulted_content ss :
  defaulted ss !! "markdown_content"
  = Some (default [] (ss !! "markdown_content")).
Proof.
  unfold defaulted.
  destruct (ss !! "markdown_content") as [c|] eqn:E; cbn [given default];
    match goal with |- context [given ?x] => destruct (given x) end;
    simplify_map_eq; reflexivity.
Qed.

Lemma defaulted_name ss :
  defaulted ss !! "file_name" = Some (default [] (ss !! "file_name")).
Proof.
  unfold defaulted.
  destruct (ss !! "markdown_content") as [c|] eqn:E; cbn [given].
  - destruct (ss !! "file_name") as [f|] eqn:F; cbn [given default];
      simplify_map_eq; reflexivity.
  - rewrite lookup_insert_ne by discriminate.
    destruct (ss !! "file_name") as [f|] eqn:F; cbn [given default];
      simplify_map_eq; reflexivity.
Qed.

Lemma results_eq a content stored :
  session_state a !! "markdown_content" = Some content ->
  session_state a !! "file_name" = Some stored ->
  results a = (Ok (), with_page (results_elements content stored) a).
Proof.
  intros Hc Hn.
  unfold results, results_elements, session_get, emit, with_page,
    download_file_name, preview, mbind, SE_bind, mret, SE_ret.
  rewrite Hc. destruct (truthy content); cbn [session_state page os].
  - rewrite Hn. cbn [session_state page os].
    rewrite <- !app_assoc. reflexivity.
  - rewrite app_nil_r. destruct a; reflexivity.
Qed.

Lemma submit_rejected uploaded_file youtube_url a :
  (uploaded_file = None /\ youtube_url = []) \/
  (youtube_url <> [] /\ is_youtube_url youtube_url = false) ->
  submit uploaded_file youtube_url a =
  (Ok (), with_page [ErrorEl (validation_message youtube_url)] a).
Proof.
  unfold submit, validation_message. intros [[-> ->] | [Hu Hv]].
  - reflexivity.
  - destruct youtube_url as [|c u]; [congruence|].
    cbn [truthy negb andb]. rewrite andb_false_r, Hv. reflexivity.
Qed.

Lemma submit_file f youtube_url a text error o :
  truthy youtube_url && negb (is_youtube_url youtube_url) = false ->
  convert_file_to_markdown (getbuffer f) (name f) (os a)
    = (Ok (text, error), o) ->
  submit (Some f) youtube_url a
  = (Ok (), after_conversion text error (name f) o a).
Proof.
  intros Hv Hc. unfold submit, after_conversion. cbn [given negb andb].
  rewrite Hv. unfold run_os, mbind, SE_bind. rewrite Hc.
  destruct (truthy_opt error); reflexivity.
Qed.

Lemma youtube_file_name_eq url :
  (if truthy_opt (extract_youtube_id url)
   then py "youtube_" ++ fmt (extract_youtube_id url) ++ py ".md"
   else py "youtube_video.md") = youtube_file_name url.
Proof.
  unfold youtube_file_name.
  destruct (extract_youtube_id url) as [x|] eqn:E; [|reflexivity].
  apply extract_youtube_id_shaped in E as [Hlen _].
  destruct x; [discriminate|reflexivity].
Qed.

Lemma submit_url youtube_url a text error o :
  is_youtube_url youtube_url = true ->
  convert_youtube_to_markdown youtube_url (os a) = (Ok (text, error), o) ->
  submit None youtube_url a
  = (Ok (), after_conversion text error (youtube_file_name youtube_url) o a).
Proof.
  intros Hv Hc. unfold submit, after_conversion. cbn [given negb andb].
  rewrite Hv. destruct youtube_url as [|c u]; [discriminate Hv|].
  cbn [truthy negb andb]. unfold run_os, mbind, SE_bind. rewrite Hc.
  destruct (truthy_opt error); [reflexivity|].
  cbv zeta. rewrite youtube_file_name_eq. reflexivity.
Qed.

Lemma download_file_name_ext stem ext :
  contains (ch ".") ext = false ->
  download_file_name (stem ++ py "." ++ ext) = stem ++ py ".md".
Proof.
  intros H. unfold download_file_name.
  change (py "." ++ ext) with (ch "." :: ext).
  rewrite (rsplit1_last _ _ _ H). reflexivity.
Qed.

(** A stored name without a dot gets [".md"] appended. *)
Lemma download_file_name_no_ext stored :
  contains (ch ".") stored = false ->
  download_file_name stored = stored ++ py ".md".
Proof.
  intros H. unfold download_file_name.
  rewrite (rsplit1_absent _ _ H). reflexivity.
Qed.

Lemma download_file_name_youtube url :
  download_file_name (youtube_file_name url) = youtube_file_name url.
Proof.
  unfold youtube_file_name.
  destruct (extract_youtube_id url) as [x|] eqn:E; [|reflexivity].
  apply extract_youtube_id_shaped, id_shaped_no_dot in E.
  change (py ".md") with (py "." ++ py "md").
  rewrite !app_assoc, <- (app_assoc _ (py ".")).
  rewrite download_file_name_ext by reflexivity.
  reflexivity.
Qed.

(** A run whose submission ends in a stored result. *)
Lemma main_stores (uploaded_file : option UploadedFile) youtube_url a
    text stored o :
  submit uploaded_file youtube_url
    {| session_state := defaulted (session_state a);
       page := page a; os := os a |}
  = (Ok (), after_conversion text None stored o
              {| session_state := defaulted (session_state a);
                 page := page a; os := os a |}) ->
  exists a',
    main true uploaded_file youtube_url a = (Ok (), a') /\
    session_state a' !! "markdown_content" = Some text /\
    session_state a' !! "file_name" = Some stored /\
    os a' = o /\
    page a' = page a
              ++ SuccessEl (py "Conversion completed successfully!")
              :: results_elements text stored.
Proof.
  intros Hs. unfold main, mbind, SE_bind.
  rewrite init_session_state_eq, Hs.
  unfold after_conversion. cbn [truthy_opt].
  erewrite results_eq; cycle 1.
  - cbn [session_state]. rewrite lookup_insert_ne by discriminate.
    apply lookup_insert_eq.
  - cbn [session_state]. apply lookup_insert_eq.
  - eexists. split; [reflexivity|]. unfold with_page.
    cbn [session_state page os]. repeat split.
    + rewrite lookup_insert_ne by discriminate. apply lookup_insert_eq.
    + apply lookup_insert_eq.
    + rewrite <- app_assoc. reflexivity.
Qed.

End ScriptFacts.

(** * The claims of the specification *)

(** ** The URL classifier *)

(** C9. For the literal ["https://www.youtube.com/watch?v=dQw4w9WgXcQ"]
    the classifier matches and extraction returns ["dQw4w9WgXcQ"]; for the
    literal ["https://youtu.be/dQw4w9WgXcQ"] extraction returns
    ["dQw4w9WgXcQ"]. *)
Theorem literal_urls :
  is_youtube_url (py "https://www.youtube.com/watch?v=dQw4w9WgXcQ") = true /\
  extract_youtube_id (py "https://www.youtube.com/watch?v=dQw4w9WgXcQ")
    = Some (py "dQw4w9WgXcQ") /\
  extract_youtube_id (py "https://youtu.be/dQw4w9WgXcQ")
    = Some (py "dQw4w9WgXcQ").
Proof. repeat split; vm_compute; reflexivity. Qed.

(** C2, as stated, fails: a string the classifier rejects can still hold
    ["v="] followed by eleven identifier characters, and extraction returns
    them. *)
Lemma rejected_url_with_identifier :
  ~ (forall url : str,
       is_youtube_url url = false -> extract_youtube_id url = None).
Proof.
  intros H.
  specialize (H (py "https://example.com/watch?v=dQw4w9WgXcQ")).
  vm_compute in H. discriminate (H eq_refl).
Qed.

(** C2, amended. Extraction does not consult the classifier: it returns no
    identifier exactly for the strings that have no ["v="] and no ["/"]
    immediately followed by eleven characters of [[0-9A-Za-z_-]]. *)
Theorem extract_none_iff (url : str) :
  extract_youtube_id url = None <-> ~ has_candidate url.
Proof. rewrite extract_first_candidate. apply first_candidate_None. Qed.

(** ** The conversion dispatcher *)

(** C1, at an input where the engine raises: the call returns the error
    pair and the scratch file is still there, with the uploaded bytes. *)
Theorem scratch_file_left_after_engine_error :
  exists o',
    @convert_file_to_markdown (failing_engine (py "File conversion failed"))
      fixed_runtime (getbuffer report_docx) (name report_docx) empty_os
    = (Ok ([], Some (py "File conversion failed")), o') /\
    files o' !! py "/tmp/tmpq3x8k2.docx" = Some (getbuffer report_docx).
Proof.
  eexists. split.
  - rewrite convert_file_to_markdown_eq. reflexivity.
  - cbn [files]. apply lookup_insert_eq.
Qed.

(** C4, as stated, fails: an exception of the engine that is not an
    instance of [Exception] passes the [except Exception] clause and leaves
    the function. *)
Lemma engine_exception_can_propagate :
  ~ (forall (converter : Converter) (url : str) (o : os_state),
       exists r o', convert_youtube_to_markdown url o = (Ok r, o')).
Proof.
  intros H.
  destruct (H interrupted_converter (py "https://youtu.be/dQw4w9WgXcQ") empty_os)
    as (r & o' & Hc).
  discriminate Hc.
Qed.

(** C4, amended. In both conversion functions an exception of the engine
    that is an instance of [Exception] is caught and returned as the pair
    of the empty content and [str(e)]; when its [str()] raises, what that
    raises leaves the function; an exception that is not an instance of
    [Exception] leaves the function as it is.  Nothing else ever leaves
    either function. *)
Theorem exception_instances_are_returned
    `{converter : Converter} `{runtime : Runtime} :
  (forall file_data filename o path e fs,
     tmp_file (files o) (scratch_suffix filename) = TempFile path ->
     md_convert path (<[path := file_data]> (files o)) = (Raise e, fs) ->
     exists o',
       convert_file_to_markdown file_data filename o
       = (match e with
          | Exception msg => Ok ([], Some msg)
          | Unprintable inner => Raise inner
          | BaseException _ => Raise e
          end, o')) /\
  (forall url o e fs,
     md_convert url (files o) = (Raise e, fs) ->
     exists o',
       convert_youtube_to_markdown url o
       = (match e with
          | Exception msg => Ok ([], Some msg)
          | Unprintable inner => Raise inner
          | BaseException _ => Raise e
          end, o')) /\
  (forall file_data filename o e' o',
     convert_file_to_markdown file_data filename o = (Raise e', o') ->
     exists path e fs,
       tmp_file (files o) (scratch_suffix filename) = TempFile path /\
       md_convert path (<[path := file_data]> (files o)) = (Raise e, fs) /\
       (e = Unprintable e' \/ is_Exception e = false /\ e = e')) /\
  (forall url o e' o',
     convert_youtube_to_markdown url o = (Raise e', o') ->
     exists e fs,
       md_convert url (files o) = (Raise e, fs) /\
       (e = Unprintable e' \/ is_Exception e = false /\ e = e')).
Proof.
  repeat split.
  - intros file_data filename o path e fs Ht He.
    rewrite convert_file_to_markdown_eq. cbv zeta. rewrite Ht, He.
    eexists. reflexivity.
  - intros url o e fs He.
    rewrite convert_youtube_to_markdown_eq. cbv zeta. rewrite He.
    eexists. reflexivity.
  - intros file_data filename o e' o'.
    rewrite convert_file_to_markdown_eq. cbv zeta.
    destruct (tmp_file _ _) as [path|msg]; [|discriminate].
    destruct (md_convert _ _) as [[text|e] fs] eqn:E.
    + destruct (fs !! _); discriminate.
    + intros H. exists path, e, fs. split; [reflexivity|]. split; [exact E|].
      destruct e; cbn [handled] in H; [discriminate| |];
        injection H as <- _; auto.
  - intros url o e' o'.
    rewrite convert_youtube_to_markdown_eq. cbv zeta.
    destruct (md_convert _ _) as [[text|e] fs] eqn:E; [discriminate|].
    intros H. exists e, fs. split; [reflexivity|].
    destruct e; cbn [handled] in H; [discriminate| |];
      injection H as <- _; auto.
Qed.

Lemma exception_instances_are_returned_witness :
  (exists o',
     @convert_youtube_to_markdown (failing_engine (py "Video unavailable"))
       (py "https://youtu.be/dQw4w9WgXcQ") empty_os
     = (Ok ([], Some (py "Video unavailable")), o')) /\
  (exists o',
     @convert_youtube_to_markdown interrupted_converter
       (py "https://youtu.be/dQw4w9WgXcQ") empty_os
     = (Raise (BaseException []), o')).
Proof.
  split.
  - destruct (@exception_instances_are_returned
                (failing_engine (py "Video unavailable")) fixed_runtime)
      as (_ & H & _).
    exact (H (py "https://youtu.be/dQw4w9WgXcQ") empty_os
             (Exception (py "Video unavailable")) ∅ eq_refl).
  - destruct (@exception_instances_are_returned
                interrupted_converter fixed_runtime)
      as (_ & H & _).
    exact (H (py "https://youtu.be/dQw4w9WgXcQ") empty_os
             (BaseException []) ∅ eq_refl).
Defined.

(** ** The session controller *)

Section Controller.
Context `{converter : Converter} `{runtime : Runtime}.

(** A conversion call that returns a non-empty error message leaves the
    stored result as it was and shows the message: on the file branch... *)
Lemma file_error_keeps_result f youtube_url a text msg o :
  youtube_url = [] \/ is_youtube_url youtube_url = true ->
  convert_file_to_markdown (getbuffer f) (name f) (os a)
    = (Ok (text, Some msg), o) ->
  msg <> [] ->
  exists a',
    submit (Some f) youtube_url a = (Ok (), a') /\
    session_state a' = session_state a /\
    page a' = page a ++ [ErrorEl (py "Error during conversion: " ++ msg)].
Proof.
  intros Hv Hc Hm. rewrite (submit_file f youtube_url a text (Some msg) o);
    [|destruct Hv as [-> | ->]; [reflexivity|apply andb_false_r]|exact Hc].
  unfold after_conversion. destruct msg; [congruence|].
  eexists. split; [reflexivity|]. split; reflexivity.
Qed.

(** ... and on the URL branch. *)
Lemma url_error_keeps_result youtube_url a text msg o :
  is_youtube_url youtube_url = true ->
  convert_youtube_to_markdown youtube_url (os a) = (Ok (text, Some msg), o) ->
  msg <> [] ->
  exists a',
    submit None youtube_url a = (Ok (), a') /\
    session_state a' = session_state a /\
    page a' = page a ++ [ErrorEl (py "Error during conversion: " ++ msg)].
Proof.
  intros Hv Hc Hm. rewrite (submit_url youtube_url a text (Some msg) o Hv Hc).
  unfold after_conversion. destruct msg; [congruence|].
  eexists. split; [reflexivity|]. split; reflexivity.
Qed.

(** A conversion call that returns no error overwrites the stored text and
    name. *)
Lemma file_success_overwrites_result f youtube_url a text o :
  youtube_url = [] \/ is_youtube_url youtube_url = true ->
  convert_file_to_markdown (getbuffer f) (name f) (os a)
    = (Ok (text, None), o) ->
  exists a',
    submit (Some f) youtube_url a = (Ok (), a') /\
    session_state a' !! "markdown_content" = Some text /\
    session_state a' !! "file_name" = Some (name f).
Proof.
  intros Hv Hc. rewrite (submit_file f youtube_url a text None o);
    [|destruct Hv as [-> | ->]; [reflexivity|apply andb_false_r]|exact Hc].
  unfold after_conversion. cbn [truthy_opt].
  eexists. split; [reflexivity|]. cbn [session_state]. split.
  - rewrite lookup_insert_ne by discriminate. apply lookup_insert_eq.
  - apply lookup_insert_eq.
Qed.

(** The same test [if error:] takes an error whose message is empty for a
    success: the stored text and name are overwritten. *)
Lemma file_empty_error_overwrites_result f youtube_url a text o :
  youtube_url = [] \/ is_youtube_url youtube_url = true ->
  convert_file_to_markdown (getbuffer f) (name f) (os a)
    = (Ok (text, Some []), o) ->
  exists a',
    submit (Some f) youtube_url a = (Ok (), a') /\
    session_state a' !! "markdown_content" = Some text /\
    session_state a' !! "file_name" = Some (name f) /\
    page a' = page a ++ [SuccessEl (py "Conversion completed successfully!")].
Proof.
  intros Hv Hc. rewrite (submit_file f youtube_url a text (Some []) o);
    [|destruct Hv as [-> | ->]; [reflexivity|apply andb_false_r]|exact Hc].
  unfold after_conversion. cbn [truthy_opt truthy].
  eexists. split; [reflexivity|]. cbn [session_state page]. repeat split.
  - rewrite lookup_insert_ne by discriminate. apply lookup_insert_eq.
  - apply lookup_insert_eq.
Qed.

(** C5. A submission with neither a file nor a URL, and a submission whose
    URL fails [is_youtube_url], shows the validation error, starts no
    conversion and leaves the session state as it was. *)
Theorem validation_error_without_conversion
    (uploaded_file : option UploadedFile) (youtube_url : str) (a : app_state) :
  (uploaded_file = None /\ youtube_url = []) \/
  (youtube_url <> [] /\ is_youtube_url youtube_url = false) ->
  exists a',
    submit uploaded_file youtube_url a = (Ok (), a') /\
    page a' = page a
              ++ [ErrorEl (if truthy youtube_url
                           then py "Please enter a valid YouTube URL"
                           else py "Please upload a file or enter a YouTube URL")] /\
    calls (os a') = calls (os a) /\
    files (os a') = files (os a) /\
    session_state a' = session_state a.
Proof.
  intros H. rewrite (submit_rejected _ _ _ H).
  eexists. split; [reflexivity|]. repeat split.
Qed.

End Controller.

(** The next theorem says that a run comes to its end, so it is for an
    engine whose failures are ordinary. *)
Section Precedence.
Context `{engine : Engine} `{runtime : Runtime}.

(** C10. With both a file and a URL: a URL that fails [is_youtube_url]
    rejects the submission and the file is not converted; otherwise the
    file is converted, exactly as if no URL had been entered, and the URL
    is never converted. *)
Theorem file_takes_precedence (f : UploadedFile) (youtube_url : str)
    (a : app_state) :
  youtube_url <> [] ->
  if is_youtube_url youtube_url then
    submit (Some f) youtube_url a = submit (Some f) [] a /\
    exists a',
      submit (Some f) youtube_url a = (Ok (), a') /\
      calls (os a')
      = calls (os a) ++ [convert_file_call (getbuffer f) (name f)]
  else
    exists a',
      submit (Some f) youtube_url a = (Ok (), a') /\
      page a' = page a ++ [ErrorEl (py "Please enter a valid YouTube URL")] /\
      calls (os a') = calls (os a) /\
      session_state a' = session_state a.
Proof.
  intros Hu. destruct (is_youtube_url youtube_url) eqn:Hv.
  - destruct (convert_file_to_markdown_returns (getbuffer f) (name f) (os a))
      as ([text error] & o & Hc & Hcalls).
    rewrite (submit_file f youtube_url a text error o), (submit_file f [] a text error o);
      [|reflexivity|exact Hc|rewrite Hv; apply andb_false_r|exact Hc].
    split; [reflexivity|]. eexists. split; [reflexivity|].
    unfold after_conversion. destruct (truthy_opt error); exact Hcalls.
  - rewrite (submit_rejected (Some f) youtube_url a) by (right; split; assumption).
    eexists. split; [reflexivity|]. unfold validation_message.
    destruct youtube_url; [congruence|]. repeat split.
Qed.

End Precedence.

Section Results.
Context `{converter : Converter} `{runtime : Runtime}.

(** C6. When a result is stored, the results section offers the full
    content for download; the preview is the content itself when it has at
    most 2000 characters, and otherwise its first 2000 characters followed
    by the truncation notice. *)
Theorem preview_and_download (a : app_state) (content stored : str) :
  session_state a !! "markdown_content" = Some content ->
  session_state a !! "file_name" = Some stored ->
  content <> [] ->
  exists shown,
    results a
    = (Ok (), with_page [DividerEl;
                         DownloadButtonEl content (download_file_name stored);
                         SubheaderEl (py "Preview");
                         TextAreaEl shown] a) /\
    (length content <= 2000 -> shown = content) /\
    (2000 < length content ->
     shown = take 2000 content ++ truncation_notice /\
     length (take 2000 content) = 2000).
Proof.
  intros Hc Hn Hne. rewrite (results_eq a content stored Hc Hn).
  unfold results_elements. destruct content as [|c content]; [congruence|].
  cbn [truthy]. eexists. split; [reflexivity|].
  destruct (Nat.ltb_spec 2000 (length (c :: content))) as [Hlt|Hle]; split.
  - intros Hle. lia.
  - intros _. split; [reflexivity|]. rewrite length_take. lia.
  - intros _. apply take_ge. exact Hle.
  - intros Hlt. lia.
Qed.

(** C7. After a successful conversion of an uploaded file named
    [stem.ext], the stored result is the new text under the uploaded name,
    whatever was stored before, and the download is offered as
    [stem.md]. *)
Theorem file_conversion_output_name (f : UploadedFile) (youtube_url : str)
    (a : app_state) (text : str) (o : os_state) (stem ext : str) :
  youtube_url = [] \/ is_youtube_url youtube_url = true ->
  convert_file_to_markdown (getbuffer f) (name f) (os a)
    = (Ok (text, None), o) ->
  name f = stem ++ py "." ++ ext ->
  contains (ch ".") ext = false ->
  exists a',
    main true (Some f) youtube_url a = (Ok (), a') /\
    session_state a' !! "markdown_content" = Some text /\
    session_state a' !! "file_name" = Some (name f) /\
    page a' = page a
              ++ SuccessEl (py "Conversion completed successfully!")
              :: (if truthy text then
                    [DividerEl;
                     DownloadButtonEl text (stem ++ py ".md");
                     SubheaderEl (py "Preview");
                     TextAreaEl (preview text)]
                  else []).
Proof.
  intros Hv Hc Hname Hext.
  destruct (main_stores (Some f) youtube_url a text (name f) o)
    as (a' & Hm & Hcontent & Hstored & _ & Hpage).
  { apply submit_file; [|exact Hc].
    destruct Hv as [-> | ->]; [reflexivity|apply andb_false_r]. }
  exists a'. repeat split; try assumption.
  rewrite Hpage. unfold results_elements.
  fold (download_file_name (name f)). fold (preview text).
  rewrite Hname, (download_file_name_ext _ _ Hext). reflexivity.
Qed.

(** C8. After a successful URL conversion the stored name is
    [youtube_X.md] when [extract_youtube_id] returns [X] and
    [youtube_video.md] when it returns nothing, and the download is
    offered under that same name. *)
Theorem url_conversion_output_name (youtube_url : str) (a : app_state)
    (text : str) (o : os_state) :
  is_youtube_url youtube_url = true ->
  convert_youtube_to_markdown youtube_url (os a) = (Ok (text, None), o) ->
  exists a' out,
    out = match extract_youtube_id youtube_url with
          | Some X => py "youtube_" ++ X ++ py ".md"
          | None => py "youtube_video.md"
          end /\
    main true None youtube_url a = (Ok (), a') /\
    session_state a' !! "markdown_content" = Some text /\
    session_state a' !! "file_name" = Some out /\
    page a' = page a
              ++ SuccessEl (py "Conversion completed successfully!")
              :: (if truthy text then
                    [DividerEl;
                     DownloadButtonEl text out;
                     SubheaderEl (py "Preview");
                     TextAreaEl (preview text)]
                  else []).
Proof.
  intros Hv Hc.
  destruct (main_stores None youtube_url a text
              (youtube_file_name youtube_url) o)
    as (a' & Hm & Hcontent & Hstored & _ & Hpage).
  { apply submit_url; [exact Hv|exact Hc]. }
  exists a', (youtube_file_name youtube_url).
  split; [reflexivity|]. repeat split; try assumption.
  rewrite Hpage. unfold results_elements.
  fold (download_file_name (youtube_file_name youtube_url)).
  fold (preview text). rewrite download_file_name_youtube. reflexivity.
Qed.

End Results.

(** ** Concrete runs *)

(** C3, at an input where it fails: the engine raises an exception whose
    message is empty.  The call returns the pair [("", "")], the test
    [if error:] takes it for a success, and the stored result and name are
    overwritten by the empty text and the uploaded name; no error is
    shown. *)
Theorem empty_error_message_overwrites_result :
  exists a',
    @main (failing_engine []) fixed_runtime true (Some report_docx) []
      old_result = (Ok (), a') /\
    session_state old_result !! "markdown_content" = Some (py "# Notes") /\
    session_state old_result !! "file_name" = Some (py "notes.docx") /\
    session_state a' !! "markdown_content" = Some [] /\
    session_state a' !! "file_name" = Some (py "report.docx") /\
    page a' = [SuccessEl (py "Conversion completed successfully!")].
Proof.
  eexists. split; [vm_compute; reflexivity|].
  repeat split; vm_compute; reflexivity.
Qed.

Lemma validation_error_without_conversion_witness :
  is_youtube_url (py "https://example.com/video") = false /\
  exists a',
    @submit (constant_engine (py "# Report")) fixed_runtime
      (Some report_docx) (py "https://example.com/video") old_result
    = (Ok (), a') /\
    page a' = [ErrorEl (py "Please enter a valid YouTube URL")] /\
    calls (os a') = [] /\
    session_state a' = session_state old_result.
Proof.
  split; [vm_compute; reflexivity|].
  destruct (@validation_error_without_conversion
              (constant_engine (py "# Report")) fixed_runtime
              (Some report_docx) (py "https://example.com/video") old_result)
    as (a' & Hs & Hp & Hc & _ & Hss).
  { right. split; [discriminate|vm_compute; reflexivity]. }
  exists a'. repeat split; assumption.
Defined.

Lemma file_takes_precedence_witness :
  @submit (constant_engine (py "# Report")) fixed_runtime
    (Some report_docx) (py "https://youtu.be/dQw4w9WgXcQ") old_result
  = @submit (constant_engine (py "# Report")) fixed_runtime
      (Some report_docx) [] old_result.
Proof.
  pose proof (@file_takes_precedence
                (constant_engine (py "# Report")) fixed_runtime
                report_docx (py "https://youtu.be/dQw4w9WgXcQ") old_result
                ltac:(discriminate)) as H.
  replace (is_youtube_url (py "https://youtu.be/dQw4w9WgXcQ")) with true in H
    by (vm_compute; reflexivity).
  exact (proj1 H).
Defined.

Lemma preview_and_download_witness :
  exists shown,
    results old_result
    = (Ok (), with_page [DividerEl;
                         DownloadButtonEl (py "# Notes") (py "notes.md");
                         SubheaderEl (py "Preview");
                         TextAreaEl shown] old_result) /\
    shown = py "# Notes".
Proof.
  destruct (preview_and_download old_result (py "# Notes") (py "notes.docx"))
    as (shown & Hr & Hshort & _);
    [vm_compute; reflexivity | vm_compute; reflexivity | discriminate |].
  exists shown. split; [exact Hr|]. apply Hshort. vm_compute. lia.
Defined.

Lemma file_conversion_output_name_witness :
  exists a',
    @main (constant_engine (py "# Report")) fixed_runtime true
      (Some report_docx) [] old_result = (Ok (), a') /\
    session_state a' !! "file_name" = Some (py "report.docx") /\
    page a' = [SuccessEl (py "Conversion completed successfully!");
               DividerEl;
               DownloadButtonEl (py "# Report") (py "report.md");
               SubheaderEl (py "Preview");
               TextAreaEl (py "# Report")].
Proof.
  destruct (@file_conversion_output_name
              (constant_engine (py "# Report")) fixed_runtime
              report_docx [] old_result (py "# Report")
              (snd (@convert_file_to_markdown
                      (constant_engine (py "# Report")) fixed_runtime
                      (getbuffer report_docx) (name report_docx) empty_os))
              (py "report") (py "docx"))
    as (a' & Hm & _ & Hn & Hp);
    [left; reflexivity | vm_compute; reflexivity | reflexivity | reflexivity |].
  exists a'. repeat split; assumption.
Defined.

Lemma url_conversion_output_name_witness :
  exists a',
    @main (constant_engine (py "# Transcript")) fixed_runtime true
      None (py "https://youtu.be/dQw4w9WgXcQ") old_result = (Ok (), a') /\
    session_state a' !! "file_name" = Some (py "youtube_dQw4w9WgXcQ.md") /\
    page a' = [SuccessEl (py "Conversion completed successfully!");
               DividerEl;
               DownloadButtonEl (py "# Transcript") (py "youtube_dQw4w9WgXcQ.md");
               SubheaderEl (py "Preview");
               TextAreaEl (py "# Transcript")].
Proof.
  destruct (@url_conversion_output_name
              (constant_engine (py "# Transcript")) fixed_runtime
              (py "https://youtu.be/dQw4w9WgXcQ") old_result
              (py "# Transcript")
              (snd (@convert_youtube_to_markdown
                      (constant_engine (py "# Transcript"))
                      (py "https://youtu.be/dQw4w9WgXcQ") empty_os)))
    as (a' & out & Hout & Hm & _ & Hn & Hp);
    [vm_compute; reflexivity | vm_compute; reflexivity |].
  exists a'. vm_compute in Hout. subst out. repeat split; assumption.
Defined.

(** * More of the script *)

(** ** The matcher finds exactly the words of a pattern *)

Section MatcherLanguage.
Implicit Types (r : regex) (k : cont) (n : nat) (s w t : str) (g : groups).

Lemma orelse_Some {A} (x y : option A) (a : A) :
  orelse x y = Some a -> x = Some a \/ y = Some a.
Proof. destruct x; cbn; auto. Qed.

Lemma orelse_is_Some {A} (x y : option A) :
  is_Some x \/ is_Some y -> is_Some (orelse x y).
Proof. destruct x; cbn; [eauto|]. intros [[? [=]]|H]; exact H. Qed.

(** Whatever the matcher accepts is a word of the pattern followed by
    something the continuation accepts. *)
Lemma m_sound r : forall k n s g g',
  m r k n s g = Some g' ->
  exists w t g'',
    s = w ++ t /\ denot r n w t /\ k (n + length w) t g'' = Some g'.
Proof.
  induction r as [|c| |items|r1 IH1 r2 IH2|r1 IH1 r2 IH2|r1 IH1|j r1 IH1
                 |r1 IH1|i r1 IH1| |]; intros k n s g g' H.
  - exists [], s, g. cbn in *. rewrite Nat.add_0_r. auto.
  - cbn in H. destruct s as [|c' s]; [discriminate|].
    destruct (N.eqb c c') eqn:E; [|discriminate]. apply N.eqb_eq in E. subst c'.
    exists [c], s, g. cbn. rewrite Nat.add_1_r. auto.
  - cbn in H. destruct s as [|c' s]; [discriminate|].
    destruct (N.eqb c' LF) eqn:E; [discriminate|]. apply N.eqb_neq in E.
    exists [c'], s, g. cbn. rewrite Nat.add_1_r. eauto.
  - cbn [m] in H. destruct s as [|c' s]; [discriminate|].
    destruct (in_set items c') eqn:E; [|discriminate].
    exists [c'], s, g. cbn. rewrite Nat.add_1_r. eauto.
  - cbn [m] in H. apply IH1 in H as (w1 & t1 & g1 & -> & D1 & H).
    apply IH2 in H as (w2 & t & g2 & -> & D2 & H).
    exists (w1 ++ w2), t, g2. rewrite <- app_assoc, length_app, Nat.add_assoc.
    split; [reflexivity|]. split; [|exact H]. cbn. eauto.
  - cbn [m] in H. apply orelse_Some in H as [H|H].
    + apply IH1 in H as (w & t & g1 & -> & D & H). exists w, t, g1. cbn. auto.
    + apply IH2 in H as (w & t & g1 & -> & D & H). exists w, t, g1. cbn. auto.
  - cbn [m] in H. apply orelse_Some in H as [H|H].
    + apply IH1 in H as (w & t & g1 & -> & D & H). exists w, t, g1. cbn. auto.
    + exists [], s, g. cbn. rewrite Nat.add_0_r. auto.
  - cbn [m denot] in *. revert k n s g g' H.
    induction j as [|j IHj]; intros k n s g g' H.
    + exists [], s, g. cbn in *. rewrite Nat.add_0_r. auto.
    + cbn [repeat_] in H. apply IH1 in H as (w1 & t1 & g1 & -> & D1 & H).
      apply IHj in H as (w2 & t & g2 & -> & D2 & H).
      exists (w1 ++ w2), t, g2. rewrite <- app_assoc, length_app, Nat.add_assoc.
      split; [reflexivity|]. split; [|exact H]. cbn. eauto.
  - cbn [m denot] in *. revert H. generalize (S (length s)) as fuel.
    intros fuel. revert n s g.
    induction fuel as [|fuel IHf]; intros n s g H.
    + exists [], s, g. cbn in *. rewrite Nat.add_0_r. split; [reflexivity|].
      split; [constructor|exact H].
    + cbn [star_loop] in H. apply orelse_Some in H as [H|H].
      * apply IH1 in H as (w1 & t1 & g1 & -> & D1 & H).
        destruct (Nat.eqb (n + length w1) n) eqn:E; [discriminate|].
        apply Nat.eqb_neq in E.
        apply IHf in H as (w2 & t & g2 & -> & D2 & H).
        exists (w1 ++ w2), t, g2.
        rewrite <- app_assoc, length_app, Nat.add_assoc.
        split; [reflexivity|]. split; [|exact H].
        constructor; [|exact D1|exact D2].
        intros ->. cbn in E. lia.
      * exists [], s, g. rewrite Nat.add_0_r. split; [reflexivity|].
        split; [constructor|exact H].
  - cbn [m] in H. apply IH1 in H as (w & t & g1 & -> & D & H).
    do 3 eexists. cbn [denot]. split; [reflexivity|]. split; [exact D|].
    exact H.
  - cbn [m] in H. destruct (Nat.eqb n 0) eqn:E; [|discriminate].
    apply Nat.eqb_eq in E. exists [], s, g. cbn. rewrite Nat.add_0_r. auto.
  - cbn [m] in H. exists [], s, g. rewrite Nat.add_0_r. cbn [denot app].
    destruct s as [|c [|c' s]]; try discriminate; auto.
    destruct (N.eqb c LF) eqn:E; [|discriminate]. apply N.eqb_eq in E.
    subst c. auto.
Qed.

(** Every word of the pattern is found, whatever is tried first: the
    alternatives that fail are backtracked over. *)
Lemma m_complete r : forall k n w t,
  denot r n w t ->
  (forall g, is_Some (k (n + length w) t g)) ->
  forall g, is_Some (m r k n (w ++ t) g).
Proof.
  induction r as [|c| |items|r1 IH1 r2 IH2|r1 IH1 r2 IH2|r1 IH1|j r1 IH1
                 |r1 IH1|i r1 IH1| |]; intros k n w t D Hk g.
  - cbn in D. subst w. cbn. specialize (Hk g). rewrite Nat.add_0_r in Hk.
    exact Hk.
  - cbn in D. subst w. cbn. rewrite N.eqb_refl.
    specialize (Hk g). cbn in Hk. rewrite Nat.add_1_r in Hk. exact Hk.
  - destruct D as (c & -> & Hc). cbn.
    apply N.eqb_neq in Hc. rewrite Hc.
    specialize (Hk g). cbn in Hk. rewrite Nat.add_1_r in Hk. exact Hk.
  - destruct D as (c & -> & Hc). cbn [m app]. rewrite Hc.
    specialize (Hk g). cbn in Hk. rewrite Nat.add_1_r in Hk. exact Hk.
  - destruct D as (w1 & w2 & -> & D1 & D2). cbn [m]. rewrite <- app_assoc.
    apply IH1; [exact D1|]. intros g1. apply IH2; [exact D2|].
    intros g2. specialize (Hk g2).
    rewrite length_app, Nat.add_assoc in Hk. exact Hk.
  - cbn [m]. apply orelse_is_Some. destruct D as [D|D]; [left|right]; auto.
  - cbn [m]. apply orelse_is_Some. destruct D as [D| ->]; [left; auto|right].
    specialize (Hk g). cbn in Hk. rewrite Nat.add_0_r in Hk. exact Hk.
  - cbn [m denot] in *. revert k n w t D Hk g.
    induction j as [|j IHj]; intros k n w t D Hk g.
    + cbn in D. subst w. cbn. specialize (Hk g). rewrite Nat.add_0_r in Hk.
      exact Hk.
    + destruct D as (w1 & w2 & -> & D1 & D2). cbn [repeat_].
      rewrite <- app_assoc. apply IH1; [exact D1|]. intros g1.
      apply IHj; [exact D2|]. intros g2. specialize (Hk g2).
      rewrite length_app, Nat.add_assoc in Hk. exact Hk.
  - cbn [m denot] in *.
    assert (Hfuel : length w < S (length (w ++ t)))
      by (rewrite length_app; lia).
    revert Hfuel. generalize (S (length (w ++ t))) as fuel. intros fuel.
    revert fuel Hk g.
    induction D as [n t|n w1 w2 t Hne D1 D2 IHD]; intros fuel Hk g Hfuel.
    + destruct fuel as [|fuel]; [cbn in Hfuel; lia|]. cbn [star_loop app].
      apply orelse_is_Some. right. specialize (Hk g).
      cbn in Hk. rewrite Nat.add_0_r in Hk. exact Hk.
    + destruct fuel as [|fuel]; [lia|]. cbn [star_loop].
      apply orelse_is_Some. left. rewrite <- app_assoc.
      apply IH1; [exact D1|]. intros g1.
      replace (Nat.eqb (n + length w1) n) with false.
      2:{ symmetry. apply Nat.eqb_neq. destruct w1; [congruence|cbn; lia]. }
      apply IHD.
      * intros g2. specialize (Hk g2).
        rewrite length_app, Nat.add_assoc in Hk. exact Hk.
      * rewrite length_app in Hfuel. destruct w1; [congruence|].
        cbn in Hfuel. lia.
  - cbn [m denot] in *. apply IH1; [exact D|]. intros g1. apply Hk.
  - destruct D as [-> ->]. cbn. specialize (Hk g). exact Hk.
  - destruct D as [-> Ht]. cbn [m app]. specialize (Hk g).
    cbn in Hk. rewrite Nat.add_0_r in Hk.
    destruct Ht as [-> | ->]; [exact Hk|]. rewrite N.eqb_refl. exact Hk.
Qed.

(** [re.match] succeeds exactly on the strings that start with a word of
    the pattern. *)
Lemma match_iff r s :
  is_Some (match_ r s) <-> exists w t, s = w ++ t /\ denot r 0 w t.
Proof.
  unfold match_. split.
  - intros [g H]. apply m_sound in H as (w & t & _ & -> & D & _). eauto.
  - intros (w & t & -> & D). apply m_complete; [exact D|].
    intros g. unfold accept. eauto.
Qed.

End MatcherLanguage.

(** ** The URLs the classifier accepts *)

Lemma denot_literal cs n w t :
  denot (foldr (fun c r => Seq (Lit c) r) Eps cs) n w t <-> w = cs.
Proof.
  revert n w. induction cs as [|c cs IH]; intros n w; cbn [foldr denot].
  - reflexivity.
  - split.
    + intros (w1 & w2 & -> & -> & D). apply IH in D. subst w2. reflexivity.
    + intros ->. exists [c], cs. split; [reflexivity|].
      split; [reflexivity|]. apply IH. reflexivity.
Qed.

Lemma denot_protocol n w t :
  denot (Opt (Group 1 (lits "http" >> Opt (Lit (ch "s")) >> lits "://"))) n w t
  <-> w ∈ url_protocols.
Proof.
  unfold url_protocols. rewrite !elem_of_cons, elem_of_nil. split.
  - intros [(w1 & w2 & -> & D1 & w3 & w4 & -> & D3 & D4) | ->]; [|auto].
    apply denot_literal in D1. apply denot_literal in D4. subst w1 w4.
    destruct D3 as [-> | ->]; auto.
  - intros [-> | [-> | [-> | []]]].
    + right. reflexivity.
    + left. exists (py "http"), (py "://"). split; [reflexivity|].
      split; [apply denot_literal; reflexivity|].
      exists [], (py "://"). split; [reflexivity|]. split; [right; reflexivity|].
      apply denot_literal. reflexivity.
    + left. exists (py "http"), (py "s://"). split; [reflexivity|].
      split; [apply denot_literal; reflexivity|].
      exists (py "s"), (py "://"). split; [reflexivity|].
      split; [left; reflexivity|]. apply denot_literal. reflexivity.
Qed.

Lemma denot_www n w t :
  denot (Opt (Group 2 (lits "www."))) n w t <-> w ∈ url_www.
Proof.
  unfold url_www. rewrite !elem_of_cons, elem_of_nil. split.
  - intros [D | ->]; [|auto]. apply denot_literal in D. subst w. auto.
  - intros [-> | [-> | []]]; [right; reflexivity|left].
    apply denot_literal. reflexivity.
Qed.

Lemma denot_host n w t :
  denot (Group 3 (Alt (lits "youtube.com")
                      (lits "youtu" >> Opt (Lit (ch ".")) >> lits "be"))) n w t
  <-> w ∈ url_hosts.
Proof.
  unfold url_hosts. rewrite !elem_of_cons, elem_of_nil. split.
  - intros [D | (w1 & w2 & -> & D1 & w3 & w4 & -> & D3 & D4)].
    + apply denot_literal in D. subst w. auto.
    + apply denot_literal in D1. apply denot_literal in D4. subst w1 w4.
      destruct D3 as [-> | ->]; auto.
  - intros [-> | [-> | [-> | []]]].
    + left. apply denot_literal. reflexivity.
    + right. exists (py "youtu"), (py ".be"). split; [reflexivity|].
      split; [apply denot_literal; reflexivity|].
      exists (py "."), (py "be"). split; [reflexivity|].
      split; [left; reflexivity|]. apply denot_literal. reflexivity.
    + right. exists (py "youtu"), (py "be"). split; [reflexivity|].
      split; [apply denot_literal; reflexivity|].
      exists [], (py "be"). split; [reflexivity|].
      split; [right; reflexivity|]. apply denot_literal. reflexivity.
Qed.

Lemma denot_any_star n w t : star_rel (denot Any) n w t <-> LF ∉ w.
Proof.
  split.
  - induction 1 as [|n w1 w2 t _ (c & -> & Hc) _ IH]; [apply not_elem_of_nil|].
    cbn [app]. apply not_elem_of_cons. split; [congruence|exact IH].
  - revert n. induction w as [|c w IH]; intros n H; [constructor|].
    apply not_elem_of_cons in H as [Hc Hw].
    apply (star_more (denot Any) n [c] w t); [discriminate| |apply IH, Hw].
    exists c. split; [reflexivity|congruence].
Qed.

Lemma denot_path n w t : denot (Plus Any) n w t <-> w <> [] /\ LF ∉ w.
Proof.
  unfold Plus. cbn [denot]. split.
  - intros (w1 & w2 & -> & (c & -> & Hc) & D). apply denot_any_star in D.
    split; [discriminate|]. cbn [app]. apply not_elem_of_cons.
    split; [congruence|exact D].
  - intros [Hne H]. destruct w as [|c w]; [congruence|].
    apply not_elem_of_cons in H as [Hc Hw]. exists [c], w.
    split; [reflexivity|]. split; [|apply denot_any_star, Hw].
    exists c. split; [reflexivity|congruence].
Qed.

Lemma is_youtube_url_shaped (url : str) :
  is_youtube_url url = true <-> url_shaped url.
Proof.
  unfold is_youtube_url.
  transitivity (is_Some (match_ youtube_regex url)).
  { destruct (match_ youtube_regex url); split; intros H;
      [eauto|reflexivity|discriminate|destruct H; discriminate]. }
  rewrite match_iff. unfold youtube_regex, url_shaped. split.
  - intros (w & t & -> & wb & w1 & -> & [-> _] & wp & w2 & -> & Dp
            & ww & w3 & -> & Dw & wh & w4 & -> & Dh
            & ws & w5 & -> & Ds & wr & w6 & -> & Dr & -> & Ht).
    apply denot_protocol in Dp. apply denot_www in Dw. apply denot_host in Dh.
    apply denot_path in Dr as [Hne Hlf]. cbn [denot] in Ds. subst ws.
    exists wp, ww, wh, wr, t. repeat split; try assumption.
    cbn [app]. rewrite app_nil_r, <- !app_assoc. reflexivity.
  - intros (proto & www & host & body & tail & -> & Hp & Hw & Hh & Hb & Hlf & Ht).
    exists (proto ++ www ++ host ++ py "/" ++ body), tail.
    split; [rewrite <- !app_assoc; reflexivity|].
    exists [], (proto ++ www ++ host ++ py "/" ++ body).
    split; [reflexivity|]. split; [split; reflexivity|].
    exists proto, (www ++ host ++ py "/" ++ body).
    split; [reflexivity|]. split; [apply denot_protocol, Hp|].
    exists www, (host ++ py "/" ++ body).
    split; [reflexivity|]. split; [apply denot_www, Hw|].
    exists host, (py "/" ++ body).
    split; [reflexivity|]. split; [apply denot_host, Hh|].
    exists (py "/"), body.
    split; [reflexivity|]. split; [reflexivity|].
    exists body, []. split; [rewrite app_nil_r; reflexivity|].
    split; [apply denot_path; auto|]. split; [reflexivity|exact Ht].
Qed.

(** The classifier accepts exactly the strings made of an optional
    ["http://"] or ["https://"], an optional ["www."], one of
    ["youtube.com"], ["youtu.be"] and ["youtube"], a slash, and at least one
    more character, none of them a newline but for a single one that may
    end the string. *)
Theorem is_youtube_url_iff (url : str) :
  is_youtube_url url = true <-> url_shaped url.
Proof. apply is_youtube_url_shaped. Qed.

(** ** What the extractor returns *)

(** The short and the embed pattern are never needed: the standard pattern
    alone gives the result of the whole loop. *)
Theorem standard_pattern_suffices (url : str) :
  first_match [pattern_standard] url = extract_youtube_id url.
Proof.
  rewrite extract_first_candidate. cbn [first_match]. unfold search.
  rewrite search_standard. destruct (first_candidate url); reflexivity.
Qed.

(** An extracted identifier has eleven characters of [[0-9A-Za-z_-]] and
    stands in the URL right after a ["v="] or a ["/"]. *)
Theorem extracted_id_occurs (url x : str) :
  extract_youtube_id url = Some x ->
  length x = 11 /\
  Forall (fun c => in_set id_set c = true) x /\
  exists pre post,
    url = pre ++ py "v=" ++ x ++ post \/ url = pre ++ py "/" ++ x ++ post.
Proof.
  rewrite extract_first_candidate. intros H.
  apply first_candidate_Some in H as ([Hlen Hall] & Hocc). auto.
Qed.

Lemma extracted_id_occurs_witness :
  exists pre post,
    py "https://youtu.be/dQw4w9WgXcQ?t=42" = pre ++ py "v=" ++ py "dQw4w9WgXcQ" ++ post \/
    py "https://youtu.be/dQw4w9WgXcQ?t=42" = pre ++ py "/" ++ py "dQw4w9WgXcQ" ++ post.
Proof.
  destruct (extracted_id_occurs (py "https://youtu.be/dQw4w9WgXcQ?t=42")
              (py "dQw4w9WgXcQ")) as (_ & _ & H); [vm_compute; reflexivity|].
  exact H.
Defined.

Lemma id_at_cut p c s y :
  id_char c = false -> id_at (p ++ c :: s) = Some y -> id_at p = Some y.
Proof.
  intros Hc. unfold id_at.
  destruct (Nat.leb 11 (length (p ++ c :: s))
            && forallb id_char (take 11 (p ++ c :: s))) eqn:E; [|discriminate].
  apply andb_true_iff in E as [_ Hall]. intros [= <-].
  destruct (Nat.le_gt_cases 11 (length p)) as [Hle|Hgt].
  - rewrite take_app_le in * by exact Hle.
    rewrite Hall, andb_true_r.
    replace (Nat.leb 11 (length p)) with true
      by (symmetry; apply Nat.leb_le, Hle).
    reflexivity.
  - exfalso. rewrite take_app_ge in Hall by lia.
    rewrite forallb_app in Hall. apply andb_true_iff in Hall as [_ Hall].
    destruct (11 - length p) as [|d] eqn:Ed; [lia|].
    cbn [take forallb] in Hall. rewrite Hc in Hall. discriminate.
Qed.

(** A candidate that starts before a character that cannot be part of an
    identifier ends before it, unless that character is the ["="] of its own
    ["v="]. *)
Lemma candidate_cut a p c s y :
  id_char c = false ->
  (p = [] -> a = ch "v" -> c <> ch "=") ->
  candidate (a :: p ++ c :: s) = Some y ->
  candidate (a :: p) = Some y.
Proof.
  intros Hc Hintro. cbn [candidate].
  destruct (N.eqb (ch "v") a) eqn:Ev.
  - apply N.eqb_eq in Ev. destruct p as [|d p]; cbn [app].
    + destruct (N.eqb (ch "=") c) eqn:Ee; [|discriminate].
      apply N.eqb_eq in Ee. exfalso. apply Hintro; congruence.
    + destruct (N.eqb (ch "=") d); [|discriminate]. apply id_at_cut, Hc.
  - destruct (N.eqb (ch "/") a); [|discriminate]. apply id_at_cut, Hc.
Qed.

Lemma candidate_has_candidate s y : candidate s = Some y -> has_candidate s.
Proof.
  intros H. apply candidate_Some in H as (Hy & post & H).
  exists [], y, post. split; [exact Hy|]. exact H.
Qed.

Lemma has_candidate_cons c s : has_candidate s -> has_candidate (c :: s).
Proof.
  intros (pre & x & post & Hx & H). exists (c :: pre), x, post.
  split; [exact Hx|]. destruct H as [-> | ->]; [left|right]; reflexivity.
Qed.

Lemma first_candidate_leftmost (pre x post : str) :
  id_shaped x ->
  (~ has_candidate pre ->
   extract_youtube_id (pre ++ py "/" ++ x ++ post) = Some x) /\
  (~ has_candidate (pre ++ py "v") ->
   extract_youtube_id (pre ++ py "v=" ++ x ++ post) = Some x).
Proof.
  intros Hx. rewrite !extract_first_candidate. split.
  - induction pre as [|a pre IH]; intros Hno.
    + change ([] ++ py "/" ++ x ++ post) with (ch "/" :: x ++ post).
      cbn [first_candidate].
      change (candidate (ch "/" :: x ++ post)) with (id_at (x ++ post)).
      rewrite (id_at_app _ _ Hx). reflexivity.
    + cbn [app first_candidate].
      destruct (candidate (a :: pre ++ py "/" ++ x ++ post)) as [y|] eqn:E.
      * exfalso. apply Hno.
        apply (candidate_has_candidate _ y).
        apply (candidate_cut a pre (ch "/") (x ++ post) y);
          [reflexivity|intros _ _; discriminate|exact E].
      * apply IH. intros H. apply Hno, has_candidate_cons, H.
  - induction pre as [|a pre IH]; intros Hno.
    + change ([] ++ py "v=" ++ x ++ post)
        with (ch "v" :: ch "=" :: x ++ post).
      cbn [first_candidate].
      change (candidate (ch "v" :: ch "=" :: x ++ post))
        with (id_at (x ++ post)).
      rewrite (id_at_app _ _ Hx). reflexivity.
    + cbn [app first_candidate].
      destruct (candidate (a :: pre ++ py "v=" ++ x ++ post)) as [y|] eqn:E.
      * exfalso. apply Hno.
        apply (candidate_has_candidate _ y).
        change (pre ++ py "v=" ++ x ++ post)
          with (pre ++ py "v" ++ ch "=" :: x ++ post) in E.
        rewrite app_assoc in E.
        apply (candidate_cut a (pre ++ py "v") (ch "=") (x ++ post) y);
          [reflexivity| |exact E].
        intros Hnil. destruct pre; discriminate Hnil.
      * apply IH. intros H. apply Hno. cbn [app].
        apply has_candidate_cons, H.
Qed.

(** The leftmost occurrence wins: an identifier after ["/"] is returned
    when nothing before that slash already looks like one, and likewise
    after ["v="]. *)
Theorem extract_leftmost (pre x post : str) :
  id_shaped x ->
  (~ has_candidate pre ->
   extract_youtube_id (pre ++ py "/" ++ x ++ post) = Some x) /\
  (~ has_candidate (pre ++ py "v") ->
   extract_youtube_id (pre ++ py "v=" ++ x ++ post) = Some x).
Proof. apply first_candidate_leftmost. Qed.

Lemma extract_leftmost_witness :
  extract_youtube_id (py "https://youtu.be" ++ py "/" ++ py "dQw4w9WgXcQ" ++ py "?t=42")
  = Some (py "dQw4w9WgXcQ").
Proof.
  apply (extract_leftmost (py "https://youtu.be") (py "dQw4w9WgXcQ") (py "?t=42")).
  - split; [reflexivity|]. apply forallb_Forall. vm_compute. reflexivity.
  - apply first_candidate_None. vm_compute. reflexivity.
Defined.

Lemma id_shaped_no_newline x : id_shaped x -> LF ∉ x.
Proof.
  intros [_ Hall]. induction Hall as [|c l Hc _ IH]; [apply not_elem_of_nil|].
  apply not_elem_of_cons. split; [|exact IH]. intros <-. discriminate Hc.
Qed.

(** The three forms of URL that the comments of [extract_youtube_id] name
    (standard, short, embedded), with or without protocol and ["www."]: each
    passes the classifier and yields the identifier it carries, whatever
    follows the identifier on the same line. *)
Theorem documented_url_forms (proto www x post url : str) :
  proto ∈ url_protocols -> www ∈ url_www ->
  id_shaped x -> LF ∉ post ->
  url ∈ [proto ++ www ++ py "youtube.com/watch?v=" ++ x ++ post;
         proto ++ www ++ py "youtu.be/" ++ x ++ post;
         proto ++ www ++ py "youtube.com/embed/" ++ x ++ post] ->
  is_youtube_url url = true /\ extract_youtube_id url = Some x.
Proof.
  intros Hp Hw Hx Hpost Hurl.
  pose proof (id_shaped_no_newline x Hx) as Hxlf.
  assert (Hne : x <> []) by (destruct Hx as [Hlen _]; destruct x; [discriminate|congruence]).
  rewrite !elem_of_cons, elem_of_nil in Hurl. split.
  - apply is_youtube_url_shaped.
    assert (Hhost1 : py "youtube.com" ∈ url_hosts)
      by (unfold url_hosts; rewrite !elem_of_cons; auto).
    assert (Hhost2 : py "youtu.be" ∈ url_hosts)
      by (unfold url_hosts; rewrite !elem_of_cons; auto).
    assert (Hlit : forall lit : str,
               lit <> [] -> LF ∉ lit -> 
               lit ++ x ++ post <> [] /\ LF ∉ lit ++ x ++ post).
    { intros lit Hl Hlf. split.
      - destruct lit; [congruence|discriminate].
      - rewrite !not_elem_of_app. auto. }
    assert (Hlf : forall lit : str, forallb (fun c => negb (N.eqb c LF)) lit = true -> LF ∉ lit).
    { intros lit H Hin. apply forallb_Forall in H.
      rewrite Forall_forall in H. specialize (H LF Hin). discriminate H. }
    destruct Hurl as [-> | [-> | [-> | []]]].
    + destruct (Hlit (py "watch?v=")) as [H1 H2];
        [discriminate|apply Hlf; reflexivity|].
      exists proto, www, (py "youtube.com"), (py "watch?v=" ++ x ++ post), [].
      rewrite app_nil_r. split; [reflexivity|]. auto 10.
    + exists proto, www, (py "youtu.be"), (x ++ post), [].
      rewrite app_nil_r. split; [reflexivity|].
      split; [exact Hp|]. split; [exact Hw|]. split; [exact Hhost2|].
      split; [destruct x; [congruence|discriminate]|].
      split; [rewrite not_elem_of_app; auto|auto].
    + destruct (Hlit (py "embed/")) as [H1 H2];
        [discriminate|apply Hlf; reflexivity|].
      exists proto, www, (py "youtube.com"), (py "embed/" ++ x ++ post), [].
      rewrite app_nil_r. split; [reflexivity|]. auto 10.
  - unfold url_protocols, url_www in Hp, Hw.
    rewrite !elem_of_cons in Hp. rewrite !elem_of_cons in Hw.
    destruct Hp as [-> | [-> | [-> | Hp]]]; [| | |inversion Hp];
      (destruct Hw as [-> | [-> | Hw]]; [| |inversion Hw]);
      destruct Hurl as [-> | [-> | [-> | []]]];
      match goal with
      | |- extract_youtube_id (?p ++ ?w ++ py "youtube.com/watch?v=" ++ _ ++ _) = _ =>
          apply (proj2 (first_candidate_leftmost (p ++ w ++ py "youtube.com/watch?") x post Hx))
      | |- extract_youtube_id (?p ++ ?w ++ py "youtu.be/" ++ _ ++ _) = _ =>
          apply (proj1 (first_candidate_leftmost (p ++ w ++ py "youtu.be") x post Hx))
      | |- extract_youtube_id (?p ++ ?w ++ py "youtube.com/embed/" ++ _ ++ _) = _ =>
          apply (proj1 (first_candidate_leftmost (p ++ w ++ py "youtube.com/embed") x post Hx))
      end;
      apply first_candidate_None; vm_compute; reflexivity.
Qed.

(** ** File names and the preview *)

Lemma contains_app sep (a b : str) :
  contains sep (a ++ b) = contains sep a || contains sep b.
Proof. unfold contains. apply existsb_app. Qed.

Lemma contains_cut sep (a b : str) : contains sep (a ++ sep :: b) = true.
Proof.
  rewrite contains_app. unfold contains at 2. cbn [existsb].
  rewrite N.eqb_refl. apply orb_true_r.
Qed.

(** [rsplit] cuts at the last separator, and only there. *)
Lemma rsplit1_cases sep s :
  (contains sep s = false /\ rsplit1 sep s = [s]) \/
  (exists a b,
     s = a ++ sep :: b /\ contains sep b = false /\ rsplit1 sep s = [a; b]).
Proof.
  destruct (contains sep s) eqn:E.
  - right. induction s as [|c s IH]; [discriminate|].
    cbn [contains existsb] in E. fold (contains sep s) in E.
    destruct (contains sep s) eqn:Es.
    + destruct (IH eq_refl) as (a & b & -> & Hb & Hr).
      exists (c :: a), b. cbn [rsplit1 app]. rewrite Hr. auto.
    + rewrite orb_false_r in E. apply N.eqb_eq in E. subst c.
      exists [], s. cbn [rsplit1 app].
      rewrite (rsplit1_absent _ _ Es), N.eqb_refl. auto.
  - left. split; [reflexivity|]. apply rsplit1_absent, E.
Qed.

(** [get_file_extension]: without a dot the extension is empty; otherwise
    it is what follows the last dot, lowered. *)
Theorem get_file_extension_cases (lower : str -> str) (filename : str) :
  (contains (ch ".") filename = false /\
   get_file_extension lower filename = []) \/
  (exists stem ext,
     filename = stem ++ py "." ++ ext /\
     contains (ch ".") ext = false /\
     get_file_extension lower filename = lower ext).
Proof.
  unfold get_file_extension.
  destruct (rsplit1_cases (ch ".") filename) as [[Hn Hr] | (a & b & -> & Hb & Hr)].
  - left. rewrite Hn. auto.
  - right. exists a, b. rewrite contains_cut, Hr. auto.
Qed.

(** Line 221: the download name is the stored name up to its last dot, or
    the whole stored name when it has no dot, followed by [".md"]; a name
    that went through it once is not changed by it again. *)
Theorem download_file_name_cases (stored : str) :
  ((contains (ch ".") stored = false /\
    download_file_name stored = stored ++ py ".md") \/
   (exists stem ext,
      stored = stem ++ py "." ++ ext /\
      contains (ch ".") ext = false /\
      download_file_name stored = stem ++ py ".md")) /\
  download_file_name (download_file_name stored) = download_file_name stored.
Proof.
  split.
  - unfold download_file_name.
    destruct (rsplit1_cases (ch ".") stored) as [[Hn Hr] | (a & b & -> & Hb & Hr)];
      rewrite Hr; [left|right]; [auto|].
    exists a, b. auto.
  - exact (download_file_name_ext (item 0 (rsplit1 (ch ".") stored))
             (py "md") eq_refl).
Qed.

(** Lines 233-237: the preview is never longer than 2000 characters plus
    the notice, and it starts like the content. *)
Theorem preview_bounds (content : str) :
  length (preview content) <= 2000 + length truncation_notice /\
  length truncation_notice = 68 /\
  take 2000 (preview content) = take 2000 content.
Proof.
  unfold preview. split; [|split; [reflexivity|]].
  - destruct (Nat.ltb 2000 (length content)).
    + rewrite length_app, length_take. lia.
    + rewrite length_take. lia.
  - destruct (Nat.ltb_spec 2000 (length content)) as [Hlt|Hle].
    + rewrite take_app_le by (rewrite length_take; lia).
      rewrite take_take. f_equal.
    + rewrite take_take. f_equal.
Qed.

(** Every extension the uploader is given is free of dots: a file
    [stem.ext] with such an extension gets the scratch suffix from [ext]
    and is offered for download as [stem.md]. *)
Theorem accepted_extension_handling (lower : str -> str) (stem ext : str) :
  ext ∈ all_extensions ->
  get_file_extension lower (stem ++ py "." ++ ext) = lower ext /\
  download_file_name (stem ++ py "." ++ ext) = stem ++ py ".md".
Proof.
  intros Hin.
  assert (Hdot : contains (ch ".") ext = false).
  { assert (Hall : forallb (fun e => negb (contains (ch ".") e)) all_extensions
                   = true) by (vm_compute; reflexivity).
    apply forallb_Forall in Hall. rewrite Forall_forall in Hall.
    specialize (Hall ext Hin). destruct (contains (ch ".") ext);
      [discriminate|reflexivity]. }
  split; [|apply download_file_name_ext, Hdot].
  unfold get_file_extension.
  change (py "." ++ ext) with (ch "." :: ext).
  rewrite contains_cut, (rsplit1_last _ _ _ Hdot). reflexivity.
Qed.

Lemma accepted_extension_handling_witness :
  get_file_extension (@lower fixed_runtime) (py "Q3.report" ++ py "." ++ py "xlsx")
    = py "xlsx" /\
  download_file_name (py "Q3.report" ++ py "." ++ py "xlsx") = py "Q3.report.md".
Proof.
  destruct (accepted_extension_handling (@lower fixed_runtime)
              (py "Q3.report") (py "xlsx")) as [H1 H2].
  - apply list_elem_of_In. vm_compute. auto 20.
  - split; [exact H1|exact H2].
Defined.

(** ** The scratch file *)

Section ScratchFile.
Context `{converter : Converter} `{runtime : Runtime}.



(** When [tempfile] cannot create the scratch file, the engine is never
    reached: the call returns the empty content with [tempfile]'s message
    and leaves the files as they were. *)
Theorem tempfile_error_is_reported (file_data : bytes) (filename : str)
    (o : os_state) (msg : str) :
  tmp_file (files o) (scratch_suffix filename) = TempError msg ->
  convert_file_to_markdown file_data filename o
  = (Ok ([], Some msg),
     {| files := files o;
        calls := calls o ++ [convert_file_call file_data filename] |}).
Proof.
  intros Ht. rewrite convert_file_to_markdown_eq. cbv zeta.
  rewrite Ht. reflexivity.
Qed.

End ScratchFile.



Lemma tempfile_error_is_reported_witness :
  fst (@convert_file_to_markdown (constant_engine (py "# Report")) fixed_runtime
         [] (py "a.b/c") empty_os)
  = Ok ([], Some (py "[Errno 2] No such file or directory: '/tmp/tmpq3x8k2.b/c'")).
Proof.
  rewrite (@tempfile_error_is_reported (constant_engine (py "# Report"))
             fixed_runtime [] (py "a.b/c") empty_os
             (py "[Errno 2] No such file or directory: '/tmp/tmpq3x8k2.b/c'")).
  - reflexivity.
  - reflexivity.
Defined.

(** ** Whole runs of the script *)

Section Runs.
Context `{engine : Engine} `{runtime : Runtime}.

Lemma defaulted_id (ss : gmap string str) :
  is_Some (ss !! "markdown_content") -> is_Some (ss !! "file_name") ->
  defaulted ss = ss.
Proof.
  intros [c Hc] [n Hn]. unfold defaulted. rewrite Hc. cbn [given].
  rewrite Hn. reflexivity.
Qed.

Lemma defaulted_other (ss : gmap string str) (key : string) :
  key <> "markdown_content" -> key <> "file_name" ->
  defaulted ss !! key = ss !! key.
Proof.
  intros H1 H2. unfold defaulted.
  destruct (given (ss !! "markdown_content"));
    match goal with |- context [given ?x] => destruct (given x) end;
    rewrite ?lookup_insert_ne by congruence; reflexivity.
Qed.

(** The three ways a submission ends. *)
Lemma submit_cases (uploaded_file : option UploadedFile) (youtube_url : str)
    (a : app_state) :
  submit uploaded_file youtube_url a
    = (Ok (), with_page [ErrorEl (validation_message youtube_url)] a) \/
  (exists f text error o,
     uploaded_file = Some f /\
     (youtube_url = [] \/ is_youtube_url youtube_url = true) /\
     convert_file_to_markdown (getbuffer f) (name f) (os a)
       = (Ok (text, error), o) /\
     calls o = calls (os a) ++ [convert_file_call (getbuffer f) (name f)] /\
     submit uploaded_file youtube_url a
       = (Ok (), after_conversion text error (name f) o a)) \/
  (exists text error o,
     uploaded_file = None /\
     is_youtube_url youtube_url = true /\
     convert_youtube_to_markdown youtube_url (os a) = (Ok (text, error), o) /\
     calls o = calls (os a) ++ [convert_youtube_call youtube_url] /\
     submit uploaded_file youtube_url a
       = (Ok (), after_conversion text error
                   (youtube_file_name youtube_url) o a)).
Proof.
  destruct (is_youtube_url youtube_url) eqn:Hv.
  - destruct uploaded_file as [f|].
    + right. left.
      destruct (convert_file_to_markdown_returns (getbuffer f) (name f) (os a))
        as ([text error] & o & Hc & Hcalls).
      exists f, text, error, o. repeat split; auto.
      apply submit_file; [rewrite Hv; apply andb_false_r|exact Hc].
    + right. right.
      destruct (convert_youtube_to_markdown_returns youtube_url (os a))
        as ([text error] & o & Hc & Hcalls).
      exists text, error, o. repeat split; auto.
      apply submit_url; [exact Hv|exact Hc].
  - destruct youtube_url as [|c u].
    + destruct uploaded_file as [f|].
      * right. left.
        destruct (convert_file_to_markdown_returns (getbuffer f) (name f) (os a))
          as ([text error] & o & Hc & Hcalls).
        exists f, text, error, o. repeat split; auto.
        apply submit_file; [reflexivity|exact Hc].
      * left. apply submit_rejected. left. auto.
    + left. apply submit_rejected. right. split; [discriminate|exact Hv].
Qed.

Lemma after_conversion_keys text error stored o a :
  is_Some (session_state a !! "markdown_content") ->
  is_Some (session_state a !! "file_name") ->
  is_Some (session_state (after_conversion text error stored o a)
             !! "markdown_content") /\
  is_Some (session_state (after_conversion text error stored o a)
             !! "file_name").
Proof.
  intros Hc Hn. unfold after_conversion.
  destruct (truthy_opt error); cbn [session_state]; [auto|].
  rewrite lookup_insert_ne by discriminate.
  rewrite !lookup_insert_eq. eauto.
Qed.

(** A run, step by step: the state [a1] after the button's branch holds
    both keys, at most one conversion call was added to it, and the
    results section only adds to its page. *)
Lemma main_run (clicked : bool) (uploaded_file : option UploadedFile)
    (youtube_url : str) (a : app_state) :
  exists a1 els,
    main clicked uploaded_file youtube_url a = (Ok (), with_page els a1) /\
    is_Some (session_state a1 !! "markdown_content") /\
    is_Some (session_state a1 !! "file_name") /\
    (calls (os a1) = calls (os a) \/
     clicked = true /\
     ((exists f, uploaded_file = Some f /\
                 (youtube_url = [] \/ is_youtube_url youtube_url = true) /\
                 calls (os a1)
                 = calls (os a) ++ [convert_file_call (getbuffer f) (name f)]) \/
      (uploaded_file = None /\ is_youtube_url youtube_url = true /\
       calls (os a1) = calls (os a) ++ [convert_youtube_call youtube_url]))).
Proof.
  unfold main, mbind, SE_bind. rewrite init_session_state_eq.
  set (a0 := {| session_state := defaulted (session_state a);
                page := page a; os := os a |}).
  assert (K0 : is_Some (session_state a0 !! "markdown_content")
               /\ is_Some (session_state a0 !! "file_name")).
  { cbn [a0 session_state]. rewrite defaulted_content, defaulted_name. eauto. }
  assert (Hres : forall a1,
             is_Some (session_state a1 !! "markdown_content") ->
             is_Some (session_state a1 !! "file_name") ->
             exists els, results a1 = (Ok (), with_page els a1)).
  { intros a1 [c Hc] [n Hn]. eexists. apply (results_eq a1 c n Hc Hn). }
  destruct clicked.
  - destruct (submit_cases uploaded_file youtube_url a0)
      as [Hs | [(f & text & error & o & Hf & Hv & Hc & Hcalls & Hs)
               | (text & error & o & Hf & Hv & Hc & Hcalls & Hs)]];
      rewrite Hs.
    + destruct (Hres (with_page [ErrorEl (validation_message youtube_url)] a0))
        as [els Hr]; [apply K0..|].
      rewrite Hr. do 2 eexists. split; [reflexivity|].
      cbn [with_page session_state os a0]. destruct K0. auto.
    + destruct (after_conversion_keys text error (name f) o a0) as [K1 K2];
        [apply K0..|].
      destruct (Hres _ K1 K2) as [els Hr]. rewrite Hr.
      do 2 eexists. split; [reflexivity|]. split; [exact K1|].
      split; [exact K2|]. right. split; [reflexivity|]. left.
      exists f. split; [exact Hf|]. split; [exact Hv|].
      unfold after_conversion. destruct (truthy_opt error); exact Hcalls.
    + destruct (after_conversion_keys text error
                  (youtube_file_name youtube_url) o a0) as [K1 K2];
        [apply K0..|].
      destruct (Hres _ K1 K2) as [els Hr]. rewrite Hr.
      do 2 eexists. split; [reflexivity|]. split; [exact K1|].
      split; [exact K2|]. right. split; [reflexivity|]. right.
      split; [exact Hf|]. split; [exact Hv|].
      unfold after_conversion. destruct (truthy_opt error); exact Hcalls.
  - unfold mret, SE_ret. destruct (Hres a0) as [els Hr]; [apply K0..|].
    rewrite Hr. do 2 eexists. split; [reflexivity|].
    destruct K0. auto.
Qed.

End Runs.

Section RunTheorems.
Context `{converter : Converter} `{runtime : Runtime}.

(** Lines 125-128: the two keys of the session state keep the value they
    hold and get the empty string when they are missing; nothing else
    changes. *)
Theorem init_session_state_defaults (a : app_state) :
  exists a',
    init_session_state a = (Ok (), a') /\
    page a' = page a /\ os a' = os a /\
    session_state a' !! "markdown_content"
      = Some (default [] (session_state a !! "markdown_content")) /\
    session_state a' !! "file_name"
      = Some (default [] (session_state a !! "file_name")) /\
    forall key : string,
      key <> "markdown_content" -> key <> "file_name" ->
      session_state a' !! key = session_state a !! key.
Proof.
  rewrite init_session_state_eq. eexists. split; [reflexivity|].
  cbn [session_state page os]. repeat split.
  - apply defaulted_content.
  - apply defaulted_name.
  - apply defaulted_other.
Qed.

End RunTheorems.

(** That a run comes to its end needs an engine whose failures are
    ordinary. *)
Section RunToTheEnd.
Context `{engine : Engine} `{runtime : Runtime}.

(** A run starts at most one conversion: none without a click; with a
    click, the file's if a file is uploaded (and the URL field is empty or
    valid), and the URL's only if no file is uploaded and the classifier
    accepts the URL. *)
Theorem one_conversion_per_run (clicked : bool)
    (uploaded_file : option UploadedFile) (youtube_url : str) (a : app_state) :
  exists a',
    main clicked uploaded_file youtube_url a = (Ok (), a') /\
    (calls (os a') = calls (os a) \/
     clicked = true /\
     ((exists f, uploaded_file = Some f /\
                 (youtube_url = [] \/ is_youtube_url youtube_url = true) /\
                 calls (os a')
                 = calls (os a) ++ [convert_file_call (getbuffer f) (name f)]) \/
      (uploaded_file = None /\ is_youtube_url youtube_url = true /\
       calls (os a') = calls (os a) ++ [convert_youtube_call youtube_url]))).
Proof.
  destruct (main_run clicked uploaded_file youtube_url a)
    as (a1 & els & Hm & _ & _ & Hcalls).
  exists (with_page els a1). split; [exact Hm|exact Hcalls].
Qed.

End RunToTheEnd.

Section Reruns.
Context `{converter : Converter} `{runtime : Runtime}.

Lemma main_without_click (uploaded_file : option UploadedFile)
    (youtube_url : str) (a : app_state) (content stored : str) :
  session_state a !! "markdown_content" = Some content ->
  session_state a !! "file_name" = Some stored ->
  main false uploaded_file youtube_url a
  = (Ok (), with_page (results_elements content stored) a).
Proof.
  intros Hc Hn. unfold main, mbind, SE_bind, mret, SE_ret.
  rewrite init_session_state_eq, defaulted_id by eauto.
  replace {| session_state := session_state a; page := page a; os := os a |}
    with a by (destruct a; reflexivity).
  apply results_eq; assumption.
Qed.

(** Without a click the run converts nothing and changes neither the
    session state nor the files: it shows the stored result again. *)
Theorem rerun_shows_stored_result (uploaded_file : option UploadedFile)
    (youtube_url : str) (a : app_state) (content stored : str) :
  session_state a !! "markdown_content" = Some content ->
  session_state a !! "file_name" = Some stored ->
  exists a',
    main false uploaded_file youtube_url a = (Ok (), a') /\
    session_state a' = session_state a /\
    os a' = os a /\
    page a' = page a
              ++ (if truthy content then
                    [DividerEl;
                     DownloadButtonEl content (download_file_name stored);
                     SubheaderEl (py "Preview");
                     TextAreaEl (preview content)]
                  else []).
Proof.
  intros Hc Hn. rewrite (main_without_click _ _ a content stored Hc Hn).
  eexists. split; [reflexivity|]. repeat split.
Qed.

(** A stored result survives later runs: after a successful file
    conversion, every run without a click shows the same download and
    preview again and leaves the session state alone. *)
Theorem result_survives_rerun (f : UploadedFile) (youtube_url : str)
    (a : app_state) (text : str) (o : os_state) :
  youtube_url = [] \/ is_youtube_url youtube_url = true ->
  convert_file_to_markdown (getbuffer f) (name f) (os a)
    = (Ok (text, None), o) ->
  exists a1,
    main true (Some f) youtube_url a = (Ok (), a1) /\
    forall (uploaded_file' : option UploadedFile) (youtube_url' : str),
    exists a2,
      main false uploaded_file' youtube_url' a1 = (Ok (), a2) /\
      session_state a2 = session_state a1 /\
      os a2 = os a1 /\
      page a2 = page a1
                ++ (if truthy text then
                      [DividerEl;
                       DownloadButtonEl text (download_file_name (name f));
                       SubheaderEl (py "Preview");
                       TextAreaEl (preview text)]
                    else []).
Proof.
  intros Hv Hc.
  destruct (main_stores (Some f) youtube_url a text (name f) o)
    as (a1 & Hm & Hcontent & Hstored & _ & _).
  { apply submit_file; [|exact Hc].
    destruct Hv as [-> | ->]; [reflexivity|apply andb_false_r]. }
  exists a1. split; [exact Hm|]. intros uploaded_file' youtube_url'.
  rewrite (main_without_click _ _ a1 text (name f) Hcontent Hstored).
  eexists. split; [reflexivity|]. repeat split.
Qed.

(** A conversion that fails with a non-empty message changes nothing that
    is stored: the run shows the error, and below it the previous result
    as before. *)
Theorem failed_conversion_shows_previous_result (f : UploadedFile)
    (youtube_url : str) (a : app_state) (content stored text msg : str)
    (o : os_state) :
  session_state a !! "markdown_content" = Some content ->
  session_state a !! "file_name" = Some stored ->
  youtube_url = [] \/ is_youtube_url youtube_url = true ->
  convert_file_to_markdown (getbuffer f) (name f) (os a)
    = (Ok (text, Some msg), o) ->
  msg <> [] ->
  exists a',
    main true (Some f) youtube_url a = (Ok (), a') /\
    session_state a' = session_state a /\
    page a' = page a
              ++ ErrorEl (py "Error during conversion: " ++ msg)
              :: (if truthy content then
                    [DividerEl;
                     DownloadButtonEl content (download_file_name stored);
                     SubheaderEl (py "Preview");
                     TextAreaEl (preview content)]
                  else []).
Proof.
  intros Hcontent Hstored Hv Hc Hmsg.
  unfold main, mbind, SE_bind.
  rewrite init_session_state_eq, defaulted_id by eauto.
  rewrite (submit_file f youtube_url _ text (Some msg) o);
    [|destruct Hv as [-> | ->]; [reflexivity|apply andb_false_r]|exact Hc].
  unfold after_conversion. destruct msg as [|c msg]; [congruence|].
  cbn [truthy_opt truthy session_state page os].
  erewrite results_eq; [|exact Hcontent|exact Hstored].
  eexists. split; [reflexivity|]. unfold with_page.
  cbn [session_state page]. split; [reflexivity|].
  rewrite <- app_assoc. reflexivity.
Qed.

End Reruns.

(** ** Concrete runs of the added theorems *)

Lemma documented_url_forms_witness :
  is_youtube_url (py "https://www.youtube.com/watch?v=dQw4w9WgXcQ&t=42") = true /\
  extract_youtube_id (py "https://www.youtube.com/watch?v=dQw4w9WgXcQ&t=42")
    = Some (py "dQw4w9WgXcQ").
Proof.
  apply (documented_url_forms (py "https://") (py "www.") (py "dQw4w9WgXcQ")
           (py "&t=42")).
  - unfold url_protocols. rewrite !elem_of_cons. auto.
  - unfold url_www. rewrite !elem_of_cons. auto.
  - split; [reflexivity|]. apply forallb_Forall. vm_compute. reflexivity.
  - intros H. apply list_elem_of_In in H. vm_compute in H.
    repeat (destruct H as [H|H]; [discriminate H|]). exact H.
  - rewrite !elem_of_cons. left. reflexivity.
Defined.

Lemma rerun_shows_stored_result_witness :
  exists a',
    @main (constant_engine (py "# Report")) fixed_runtime false
      (Some report_docx) (py "https://example.com/video") old_result
    = (Ok (), a') /\
    session_state a' = session_state old_result /\
    os a' = empty_os /\
    page a' = [DividerEl;
               DownloadButtonEl (py "# Notes") (py "notes.md");
               SubheaderEl (py "Preview");
               TextAreaEl (py "# Notes")].
Proof.
  destruct (@rerun_shows_stored_result
              (constant_engine (py "# Report")) fixed_runtime
              (Some report_docx) (py "https://example.com/video") old_result
              (py "# Notes") (py "notes.docx"))
    as (a' & Hm & Hs & Ho & Hp); [vm_compute; reflexivity..|].
  exists a'. repeat split; assumption.
Defined.

Lemma result_survives_rerun_witness :
  exists a1 a2,
    @main (constant_engine (py "# Report")) fixed_runtime true
      (Some report_docx) [] old_result = (Ok (), a1) /\
    @main (constant_engine (py "# Report")) fixed_runtime false None [] a1
    = (Ok (), a2) /\
    session_state a2 = session_state a1 /\
    page a2 = page a1
              ++ [DividerEl;
                  DownloadButtonEl (py "# Report") (py "report.md");
                  SubheaderEl (py "Preview");
                  TextAreaEl (py "# Report")].
Proof.
  destruct (@result_survives_rerun
              (constant_engine (py "# Report")) fixed_runtime
              report_docx [] old_result (py "# Report")
              (snd (@convert_file_to_markdown
                      (constant_engine (py "# Report")) fixed_runtime
                      (getbuffer report_docx) (name report_docx) empty_os)))
    as (a1 & Hm & Hlater); [left; reflexivity|vm_compute; reflexivity|].
  destruct (Hlater None []) as (a2 & Hm2 & Hs & _ & Hp).
  exists a1, a2. repeat split; assumption.
Defined.

Lemma failed_conversion_shows_previous_result_witness :
  exists a',
    @main (failing_engine (py "File conversion failed")) fixed_runtime true
      (Some report_docx) [] old_result = (Ok (), a') /\
    session_state a' = session_state old_result /\
    page a' = [ErrorEl (py "Error during conversion: File conversion failed");
               DividerEl;
               DownloadButtonEl (py "# Notes") (py "notes.md");
               SubheaderEl (py "Preview");
               TextAreaEl (py "# Notes")].
Proof.
  destruct (@failed_conversion_shows_previous_result
              (failing_engine (py "File conversion failed")) fixed_runtime
              report_docx [] old_result (py "# Notes") (py "notes.docx")
              [] (py "File conversion failed")
              (snd (@convert_file_to_markdown
                      (failing_engine (py "File conversion failed"))
                      fixed_runtime
                      (getbuffer report_docx) (name report_docx) empty_os)))
    as (a' & Hm & Hs & Hp);
    [vm_compute; reflexivity | vm_compute; reflexivity | left; reflexivity
    | vm_compute; reflexivity | discriminate |].
  exists a'. repeat split; assumption.
Defined.

(** The pair a conversion function returns never carries both a text and
    an error: whenever the error is set, the content is the empty string. *)
Theorem error_comes_with_empty_content `{engine : Engine} `{runtime : Runtime}
    (file_data : bytes) (filename url : str) (o : os_state) :
  (exists content error o',
     convert_file_to_markdown file_data filename o = (Ok (content, error), o') /\
     (error = None \/ content = [])) /\
  (exists content error o',
     convert_youtube_to_markdown url o = (Ok (content, error), o') /\
     (error = None \/ content = [])).
Proof.
  split.
  - rewrite convert_file_to_markdown_eq. cbv zeta.
    destruct (tmp_file _ _) as [path|msg];
      [|do 3 eexists; split; [reflexivity|auto]].
    destruct (md_convert _ _) as [[text|e] fs] eqn:E.
    + destruct (fs !! _); do 3 eexists; (split; [reflexivity|]); auto.
    + apply engine_raises_exceptions in E as [msg ->].
      do 3 eexists. split; [reflexivity|]. auto.
  - rewrite convert_youtube_to_markdown_eq. cbv zeta.
    destruct (md_convert _ _) as [[text|e] fs] eqn:E.
    + do 3 eexists. split; [reflexivity|]. auto.
    + apply engine_raises_exceptions in E as [msg ->].
      do 3 eexists. split; [reflexivity|]. auto.
Qed.

(** ** What can leave the button's branch *)


